(** * faad2_debug: ADTS framing, header dump and decode driver

    A shallow embedding of [scripts/faad2_debug.c].  Buffers are lists of
    bytes, a [(pointer, length)] pair of the C code is one list, C integers
    are [Z] with the conversions of the C code written out (LP64: [int] is
    32 bits, [size_t] and [unsigned long] are 64 bits), and the FAAD2
    library, [atoi] and the file system are parameters of the driver. *)

From Stdlib Require Import ZArith List Lia Bool.
From Stdlib.Strings Require Import Byte.
From Stdlib.Strings Require String.
Import ListNotations.
Open Scope Z_scope.

(** ** Machine integers *)

Module CInt.

Definition to_uint8 (z : Z) : Z := z mod 2 ^ 8.
Definition to_uint16 (z : Z) : Z := z mod 2 ^ 16.
Definition to_size_t (z : Z) : Z := z mod 2 ^ 64.
Definition to_ulong (z : Z) : Z := z mod 2 ^ 64.

(** Conversion to [int]: two's complement on 32 bits. *)
Definition to_int (z : Z) : Z := (z + 2 ^ 31) mod 2 ^ 32 - 2 ^ 31.

Definition INT32_MAX : Z := 2 ^ 31 - 1.
Definition SIZE_MAX : Z := 2 ^ 64 - 1.

End CInt.
Import CInt.

Definition ADTS_HEADER_SIZE : Z := 7.

(** [data[i]] for a [const uint8_t *data], promoted to [int]. *)
Definition byte_val (b : byte) : Z := Z.of_N (Byte.to_N b).

Definition byte_at (data : list byte) (i : Z) : Z :=
  byte_val (nth (Z.to_nat i) data x00).

(** [data + p] for a buffer that ends where [data] ends. *)
Definition slice (data : list byte) (p : Z) : list byte :=
  skipn (Z.to_nat p) data.

(** ** The header record *)

Record adts_header_t : Type := mk_adts_header {
  syncword : Z;
  id : Z;
  layer : Z;
  protection_absent : Z;
  profile : Z;
  sf_index : Z;
  private_bit : Z;
  channel_config : Z;
  original : Z;
  home : Z;
  copyright_bit : Z;
  copyright_start : Z;
  frame_length : Z;
  buffer_fullness : Z;
  num_raw_blocks : Z
}.

(** [parse_adts_header]: [None] is the C return value -1, [Some hdr] is 0
    with [*hdr] filled in.  [len] is the length of the slice. *)
Definition parse_adts_header (data : list byte) : option adts_header_t :=
  let len := Z.of_nat (length data) in
  let d := byte_at data in
  if len <? ADTS_HEADER_SIZE then None
  else if negb (d 0 =? 0xFF) || negb (Z.land (d 1) 0xF0 =? 0xF0) then None
  else Some {|
    syncword := to_uint16 0xFFF;
    id := to_uint8 (Z.land (Z.shiftr (d 1) 3) 0x01);
    layer := to_uint8 (Z.land (Z.shiftr (d 1) 1) 0x03);
    protection_absent := to_uint8 (Z.land (d 1) 0x01);
    profile := to_uint8 (Z.land (Z.shiftr (d 2) 6) 0x03);
    sf_index := to_uint8 (Z.land (Z.shiftr (d 2) 2) 0x0F);
    private_bit := to_uint8 (Z.land (Z.shiftr (d 2) 1) 0x01);
    channel_config :=
      to_uint8 (Z.lor (Z.shiftl (Z.land (d 2) 0x01) 2)
                      (Z.land (Z.shiftr (d 3) 6) 0x03));
    original := to_uint8 (Z.land (Z.shiftr (d 3) 5) 0x01);
    home := to_uint8 (Z.land (Z.shiftr (d 3) 4) 0x01);
    copyright_bit := to_uint8 (Z.land (Z.shiftr (d 3) 3) 0x01);
    copyright_start := to_uint8 (Z.land (Z.shiftr (d 3) 2) 0x01);
    frame_length :=
      to_uint16 (Z.lor (Z.lor (Z.shiftl (Z.land (d 3) 0x03) 11)
                              (Z.shiftl (d 4) 3))
                       (Z.land (Z.shiftr (d 5) 5) 0x07));
    buffer_fullness :=
      to_uint16 (Z.lor (Z.shiftl (Z.land (d 5) 0x1F) 6)
                       (Z.land (Z.shiftr (d 6) 2) 0x3F));
    num_raw_blocks := to_uint8 (Z.land (d 6) 0x03)
  |}.

(** ** The sync scanner *)

(** The [for] loop of [find_adts_sync], one iteration per unit of fuel;
    -1 is "not found".  [i + 1] stays below [len], so the [size_t] sum
    does not wrap; the index is returned through the cast [(int)i]. *)
Fixpoint find_adts_sync_loop (fuel : nat) (data : list byte) (len i : Z) : Z :=
  match fuel with
  | O => -1
  | S fuel' =>
      if i + 1 <? len then
        if (byte_at data i =? 0xFF)
           && (Z.land (byte_at data (i + 1)) 0xF0 =? 0xF0)
        then to_int i
        else find_adts_sync_loop fuel' data len (i + 1)
      else -1
  end.

(** The loop runs at most [len] times: [i] counts up from 0 and the loop
    is left as soon as [i + 1 >= len]. *)
Definition find_adts_sync (data : list byte) : Z :=
  let len := Z.of_nat (length data) in
  find_adts_sync_loop (length data) data len 0.

(** ** Effects

    Everything the tool does to the outside world, in program order: the
    lines it prints, the files it writes and its calls into FAAD2. *)

(** The three path formats: [%s/frame_%04d_adts.bin],
    [%s/frame_%04d_pcm.bin] and [%s/info.json]. *)
Inductive path : Type :=
  | frame_adts_bin (dir : String.string) (frame : Z)
  | frame_pcm_bin (dir : String.string) (frame : Z)
  | info_json (dir : String.string).

Inductive message : Type :=
  | msg_usage
  | err_cannot_open
  | err_out_of_memory
  | err_cannot_read
  | err_no_sync
  | warn_skipped (sync_offset : Z)
  | err_cannot_create_decoder
  | err_init_failed
  | msg_initialized (sample_rate channels : Z)
  | msg_output_directory
  | warn_invalid_header (frame : Z)
  | warn_invalid_frame_length (frame : Z)
  | warn_decode_error (frame : Z) (error : Z)
  | msg_frame (frame samples channels : Z)
  | msg_decoded (frames total_samples : Z)
  | err_cannot_create (p : path).

Inductive event : Type :=
  | Stderr (m : message)
  | Stdout (m : message)
  | WriteBinary (p : path) (content : list byte)
  | WriteInfo (p : path) (sample_rate channels total_frames total_samples : Z)
  | CallOpen
  | CallSetConfiguration
  | CallInit
  | CallDecode
  | CallClose.

(** [dump_binary].  [fopen p] is the answer of the file system to
    [fopen(path, "wb")]: [true] for a stream, [false] for [NULL].  With a
    stream the file is created and [fwrite(data, 1, size, f)] is handed
    the first [size] bytes found at [data]; without one the function
    prints "Error: cannot create" and writes nothing.  The [int] result,
    0 or -1, is dropped by [main] and is not part of the effects. *)
Definition dump_binary (fopen : path -> bool) (p : path) (data : list byte)
    (size : Z) : event :=
  if fopen p then WriteBinary p (firstn (Z.to_nat size) data)
  else Stderr (err_cannot_create p).

(** ** The header artifact *)

(** A store into a [uint8_t]. *)
Definition store_uint8 (z : Z) : byte :=
  match Byte.of_N (Z.to_N (to_uint8 z)) with
  | Some b => b
  | None => x00
  end.

(** The 16 bytes [buf[0..15]] that [dump_adts_header] hands to
    [dump_binary]. *)
Definition adts_header_buf (hdr : adts_header_t) : list byte :=
  [ store_uint8 (Z.land (Z.shiftr (syncword hdr) 8) 0xFF);
    store_uint8 (Z.land (syncword hdr) 0xFF);
    store_uint8 (id hdr);
    store_uint8 (layer hdr);
    store_uint8 (protection_absent hdr);
    store_uint8 (profile hdr);
    store_uint8 (sf_index hdr);
    store_uint8 (private_bit hdr);
    store_uint8 (channel_config hdr);
    store_uint8 (original hdr);
    store_uint8 (home hdr);
    store_uint8 (Z.land (Z.shiftr (frame_length hdr) 8) 0xFF);
    store_uint8 (Z.land (frame_length hdr) 0xFF);
    store_uint8 (Z.land (Z.shiftr (buffer_fullness hdr) 8) 0xFF);
    store_uint8 (Z.land (buffer_fullness hdr) 0xFF);
    store_uint8 (num_raw_blocks hdr) ].

Definition dump_adts_header (fopen : path -> bool) (dir : String.string)
    (frame : Z) (hdr : adts_header_t) : event :=
  dump_binary fopen (frame_adts_bin dir frame) (adts_header_buf hdr) 16.

(** ** The sample artifact *)

Inductive faad_fmt : Type :=
  | FAAD_FMT_16BIT
  | FAAD_FMT_24BIT
  | FAAD_FMT_32BIT
  | FAAD_FMT_FLOAT
  | FAAD_FMT_DOUBLE
  | FAAD_FMT_other.

Definition sample_size (format : faad_fmt) : Z :=
  match format with
  | FAAD_FMT_16BIT => 2
  | FAAD_FMT_24BIT => 4
  | FAAD_FMT_32BIT => 4
  | FAAD_FMT_FLOAT => 4
  | FAAD_FMT_DOUBLE => 8
  | FAAD_FMT_other => 2
  end.

(** [num_samples * channels * sample_size] is computed in [size_t]. *)
Definition dump_pcm (fopen : path -> bool) (dir : String.string) (frame : Z)
    (samples : list byte) (num_samples channels : Z) (format : faad_fmt)
    : event :=
  dump_binary fopen (frame_pcm_bin dir frame) samples
    (to_size_t (to_size_t (num_samples * channels) * sample_size format)).

(** [write_info_json]: when [fopen(path, "w")] gives no stream the
    function returns -1 without a word and nothing is written. *)
Definition write_info_json (fopen : path -> bool) (dir : String.string)
    (sample_rate channels total_frames total_samples : Z) : list event :=
  if fopen (info_json dir)
  then [WriteInfo (info_json dir) sample_rate channels total_frames
          total_samples]
  else [].

(** ** The decode driver *)

(** What [NeAACDecDecode] reports in [NeAACDecFrameInfo] ([error] and
    [channels] are [unsigned char], [samples] is [unsigned long]) together
    with the returned sample pointer ([None] is [NULL]). *)
Record decode_result : Type := mk_decode_result {
  sample_buffer : option (list byte);
  fi_error : byte;
  fi_samples : Z;
  fi_channels : byte
}.

(** One trip through the [while] loop.  Dividing by a channel count of 0
    is undefined in C; the model stops there and keeps the effects that
    happened before. *)
Inductive iteration (state : Type) : Type :=
  | Leave (s : state)                   (* condition false, or [break] *)
  | Again (s : state)                   (* [continue], or end of the body *)
  | DivideByZero (before : list event). (* [frame_info.samples / 0] *)
Arguments Leave {state} s.
Arguments Again {state} s.
Arguments DivideByZero {state} before.

Inductive outcome (A : Type) : Type :=
  | Finished (a : A)
  | Crashed (before : list event)
  | OutOfFuel.
Arguments Finished {A} a.
Arguments Crashed {A} before.
Arguments OutOfFuel {A}.

(** What became of the input file: [fopen], [malloc] and [fread]. *)
Inductive read_result : Type :=
  | CannotOpen
  | OutOfMemory
  | CannotRead
  | Loaded (file_data : list byte).

Section Driver.

(** The FAAD2 decoder: its handle is an explicit state. *)
Variable decoder_t : Type.
Variable NeAACDecOpen : option decoder_t.
Variable NeAACDecSetConfiguration : decoder_t -> faad_fmt -> Z -> decoder_t.
(** Returns [bytes_consumed], [sample_rate] and [channels]. *)
Variable NeAACDecInit : decoder_t -> list byte -> decoder_t * (Z * (Z * byte)).
Variable NeAACDecDecode : decoder_t -> list byte -> decoder_t * decode_result.

(** The C library and the file system.  [fopen before p] tells whether
    the file system lets the run create the file [p] at the moment when
    the effects [before] have happened. *)
Variable atoi : String.string -> Z.
Variable read_file : String.string -> read_result.
Variable fopen : list event -> path -> bool.

(** The local variables of [main] that live across the frame loop, and
    the effects so far. *)
Record run_state : Type := mk_run_state {
  pos : Z;
  frame_num : Z;
  total_samples : Z;
  decoder : decoder_t;
  log : list event
}.

Section Loop.

Variable file_data : list byte.
Variable output_dir : String.string.
Variable max_frames : Z.

(** One evaluation of the [while] condition and, when it holds, of the
    loop body. *)
Definition loop_body (s : run_state) : iteration run_state :=
  let file_size := Z.of_nat (length file_data) in
  let slice := slice file_data in
  if (pos s <? file_size) && (frame_num s <? max_frames) then
    let next_sync := find_adts_sync (slice (pos s)) in
    if next_sync <? 0 then Leave s
    else
      let pos1 := to_size_t (pos s + next_sync) in
      match parse_adts_header (slice pos1) with
      | None =>
          Again (mk_run_state (to_size_t (pos1 + 1)) (frame_num s)
                   (total_samples s) (decoder s)
                   (log s ++ [Stderr (warn_invalid_header (frame_num s))]))
      | Some adts_hdr =>
          if (frame_length adts_hdr <? ADTS_HEADER_SIZE)
             || (to_size_t (pos1 + frame_length adts_hdr) >? file_size)
          then
            Again (mk_run_state (to_size_t (pos1 + 1)) (frame_num s)
                     (total_samples s) (decoder s)
                     (log s ++ [Stderr (warn_invalid_frame_length
                                          (frame_num s))]))
          else
            let log1 :=
              log s ++ [dump_adts_header (fopen (log s)) output_dir
                          (frame_num s) adts_hdr;
                        CallDecode] in
            let (decoder1, frame_info) :=
              NeAACDecDecode (decoder s) (slice pos1) in
            let pos2 := to_size_t (pos1 + frame_length adts_hdr) in
            let frame_num2 := to_int (frame_num s + 1) in
            if negb (byte_val (fi_error frame_info) =? 0) then
              Again (mk_run_state pos2 frame_num2 (total_samples s) decoder1
                       (log1 ++ [Stderr (warn_decode_error (frame_num s)
                                   (byte_val (fi_error frame_info)))]))
            else
              let channels := byte_val (fi_channels frame_info) in
              let printed :=
                Stdout (msg_frame (frame_num s) (fi_samples frame_info)
                          channels) in
              match sample_buffer frame_info with
              | Some samples =>
                  if fi_samples frame_info >? 0 then
                    if channels =? 0 then DivideByZero log1
                    else
                      let per_channel :=
                        fi_samples frame_info / channels in
                      Again (mk_run_state pos2 frame_num2
                               (to_ulong (total_samples s + per_channel))
                               decoder1
                               (log1 ++ [dump_pcm (fopen log1) output_dir
                                           (frame_num s) samples per_channel
                                           channels FAAD_FMT_16BIT;
                                         printed]))
                  else
                    Again (mk_run_state pos2 frame_num2 (total_samples s)
                             decoder1 (log1 ++ [printed]))
              | None =>
                  Again (mk_run_state pos2 frame_num2 (total_samples s)
                           decoder1 (log1 ++ [printed]))
              end
      end
  else Leave s.

(** The [while] loop, one iteration per unit of fuel. *)
Fixpoint decode_loop (fuel : nat) (s : run_state) : outcome run_state :=
  match fuel with
  | O => OutOfFuel
  | S fuel' =>
      match loop_body s with
      | Leave s' => Finished s'
      | Again s' => decode_loop fuel' s'
      | DivideByZero before => Crashed before
      end
  end.

End Loop.

(** [main]: the exit status and the effects, in order.  [atoi] returns an
    [int], which [to_int] pins to 32 bits.  The results of the three
    writers are not looked at: a file that cannot be created changes
    neither the counters nor the exit status. *)
Definition main (fuel : nat) (argv : list String.string)
    : outcome (Z * list event) :=
  let argc := Z.of_nat (length argv) in
  if argc <? 3 then Finished (1, [Stderr msg_usage])
  else
    let input_path := nth 1 argv String.EmptyString in
    let output_dir := nth 2 argv String.EmptyString in
    let max_frames :=
      if argc >? 3 then to_int (atoi (nth 3 argv String.EmptyString))
      else INT32_MAX in
    match read_file input_path with
    | CannotOpen => Finished (1, [Stderr err_cannot_open])
    | OutOfMemory => Finished (1, [Stderr err_out_of_memory])
    | CannotRead => Finished (1, [Stderr err_cannot_read])
    | Loaded file_data =>
        let sync_offset := find_adts_sync file_data in
        if sync_offset <? 0 then Finished (1, [Stderr err_no_sync])
        else
          let log0 :=
            (if sync_offset >? 0 then [Stderr (warn_skipped sync_offset)]
             else []) ++ [CallOpen] in
          match NeAACDecOpen with
          | None => Finished (1, log0 ++ [Stderr err_cannot_create_decoder])
          | Some decoder0 =>
              let decoder1 :=
                NeAACDecSetConfiguration decoder0 FAAD_FMT_16BIT 0 in
              let '(decoder2, (bytes_consumed, (sample_rate, channels))) :=
                NeAACDecInit decoder1 (slice file_data sync_offset) in
              let log1 := log0 ++ [CallSetConfiguration; CallInit] in
              if bytes_consumed <? 0 then
                Finished (1, log1 ++ [Stderr err_init_failed; CallClose])
              else
                let log2 :=
                  log1 ++ [Stdout (msg_initialized sample_rate
                                     (byte_val channels));
                           Stdout msg_output_directory] in
                match decode_loop file_data output_dir max_frames fuel
                        (mk_run_state sync_offset 0 0 decoder2 log2) with
                | Finished s =>
                    Finished
                      (0, log s ++
                          write_info_json (fopen (log s)) output_dir
                            sample_rate (byte_val channels) (frame_num s)
                            (total_samples s) ++
                          [Stdout (msg_decoded (frame_num s)
                                     (total_samples s));
                           CallClose])
                | Crashed before => Crashed before
                | OutOfFuel => OutOfFuel
                end
          end
    end.

End Driver.

Arguments mk_run_state {decoder_t} pos frame_num total_samples decoder log.
Arguments pos {decoder_t} r.
Arguments frame_num {decoder_t} r.
Arguments total_samples {decoder_t} r.
Arguments decoder {decoder_t} r.
Arguments log {decoder_t} r.
Arguments loop_body {decoder_t} NeAACDecDecode fopen file_data output_dir
  max_frames s.
Arguments decode_loop {decoder_t} NeAACDecDecode fopen file_data output_dir
  max_frames fuel s.
Arguments main {decoder_t} NeAACDecOpen NeAACDecSetConfiguration NeAACDecInit
  NeAACDecDecode atoi read_file fopen fuel argv.

(** * What the specification says

    The notions of the specification that the source is compared with. *)

(** The sync pattern at the start of a slice: first byte 0xFF, top nibble
    of the second byte 0xF. *)
Definition sync_pattern (data : list byte) : Prop :=
  byte_at data 0 = 0xFF /\ byte_at data 1 / 16 = 0xF.

(** The bytes as one big-endian number, first byte most significant. *)
Definition be_value (data : list byte) : Z :=
  fold_left (fun acc b => acc * 256 + byte_val b) data 0.

(** Cutting consecutive fields off the top of a number of [remaining]
    bits: the first width takes the most significant bits. *)
Fixpoint split_fields (v remaining : Z) (widths : list Z) : list Z :=
  match widths with
  | [] => []
  | w :: ws =>
      (v / 2 ^ (remaining - w)) mod 2 ^ w :: split_fields v (remaining - w) ws
  end.

(** The field widths of the 7-byte ADTS header, in stream order: syncword,
    id, layer, protection_absent, profile, sampling_frequency_index,
    private_bit, channel_configuration, original_copy, home,
    copyright_id_bit, copyright_id_start, frame_length, buffer_fullness,
    num_raw_data_blocks_minus_one. *)
Definition adts_field_widths : list Z :=
  [12; 1; 2; 1; 2; 4; 1; 3; 1; 1; 1; 1; 13; 11; 2].

Definition header_fields (hdr : adts_header_t) : list Z :=
  [ syncword hdr; id hdr; layer hdr; protection_absent hdr; profile hdr;
    sf_index hdr; private_bit hdr; channel_config hdr; original hdr;
    home hdr; copyright_bit hdr; copyright_start hdr; frame_length hdr;
    buffer_fullness hdr; num_raw_blocks hdr ].

(** A 7-byte header with a given sampling frequency index and frame
    length, every other field 0 (MPEG-4, no CRC). *)
Definition header_bytes (sfi fl : Z) : list byte :=
  [ xff; xf1; store_uint8 (sfi * 4); store_uint8 (fl / 2048);
    store_uint8 (fl / 8); store_uint8 (fl mod 8 * 32); x00 ].

(** Reading the artifact back: one byte, and two bytes big-endian. *)
Definition read_u8 (buf : list byte) (i : nat) : Z :=
  byte_val (nth i buf x00).

Definition read_u16be (buf : list byte) (i : nat) : Z :=
  byte_val (nth i buf x00) * 256 + byte_val (nth (S i) buf x00).

(** The reader that matches the writer's 16-byte layout, field by field,
    and the fields of a record that the layout has a place for: all of
    [header_fields] but [copyright_bit] and [copyright_start]. *)
Definition read_adts_artifact (buf : list byte) : list Z :=
  [ read_u16be buf 0; read_u8 buf 2; read_u8 buf 3; read_u8 buf 4;
    read_u8 buf 5; read_u8 buf 6; read_u8 buf 7; read_u8 buf 8;
    read_u8 buf 9; read_u8 buf 10; read_u16be buf 11; read_u16be buf 13;
    read_u8 buf 15 ].

Definition stored_fields (hdr : adts_header_t) : list Z :=
  [ syncword hdr; id hdr; layer hdr; protection_absent hdr; profile hdr;
    sf_index hdr; private_bit hdr; channel_config hdr; original hdr;
    home hdr; frame_length hdr; buffer_fullness hdr; num_raw_blocks hdr ].

(** A position of the buffer where a sync pattern starts, with both of
    its bytes inside the buffer. *)
Definition is_sync_index (buffer : list byte) (i : Z) : Prop :=
  0 <= i /\ i + 1 < Z.of_nat (length buffer) /\
  byte_at buffer i = 0xFF /\ byte_at buffer (i + 1) / 16 = 0xF.

(** Two headers that differ in the copyright bits only (byte 3, bits 3
    and 2), and two header records of the writer's input type that differ
    in every field. *)
Definition header_plain : list byte := [xff; xf1; x50; x80; x06; x5f; xfc].
Definition header_copyrighted : list byte :=
  [xff; xf1; x50; x8c; x06; x5f; xfc].

Definition hdr_plain : adts_header_t :=
  mk_adts_header 0xFFF 0 0 1 1 4 0 2 0 0 0 0 50 2047 0.

(** The two extreme headers: every field 0, and every bit 1. *)
Definition header_low : list byte := [xff; xf0; x00; x00; x00; x00; x00].
Definition header_high : list byte := [xff; xff; xff; xff; xff; xff; xff].

Definition hdr_zeros : adts_header_t :=
  mk_adts_header 0 0 0 0 0 0 0 0 0 0 0 0 0 0 0.
Definition hdr_ones : adts_header_t :=
  mk_adts_header 0x0101 1 1 1 1 1 1 1 1 1 1 1 0x0101 0x0101 1.

(** Counting effects of one kind in a log. *)
Definition count (p : event -> bool) (l : list event) : Z :=
  Z.of_nat (length (filter p l)).

Definition is_adts_write (e : event) : bool :=
  match e with
  | WriteBinary (frame_adts_bin _ _) _ => true
  | _ => false
  end.

(** What a call of [dump_adts_header] leaves in the log: the header
    artifact, or the message that it cannot be created. *)
Definition is_adts_dump (e : event) : bool :=
  match e with
  | WriteBinary (frame_adts_bin _ _) _ => true
  | Stderr (err_cannot_create (frame_adts_bin _ _)) => true
  | _ => false
  end.

Definition is_decode_call (e : event) : bool :=
  match e with
  | CallDecode => true
  | _ => false
  end.

Definition is_decode_error (e : event) : bool :=
  match e with
  | Stderr (warn_decode_error _ _) => true
  | _ => false
  end.

Definition is_frame_report (e : event) : bool :=
  match e with
  | Stdout (msg_frame _ _ _) => true
  | _ => false
  end.

(** The effects of a run that did not run out of fuel. *)
Definition effects (o : outcome (Z * list event)) : option (list event) :=
  match o with
  | Finished (_, l) => Some l
  | Crashed before => Some before
  | OutOfFuel => None
  end.

(** ** A small stream and a stub decoder

    Two frames of 50 bytes (7 header bytes, 43 payload bytes) with a stray
    sync pattern and 10 filler bytes between them, and a decoder that
    reports 7 samples on 2 channels for every frame. *)
Definition frame50 : list byte := header_plain ++ repeat x00 43.

Definition two_frames : list byte :=
  frame50 ++ [xff; xf0] ++ repeat x00 10 ++ frame50.

Definition stub_samples : list byte := repeat x01 14.

Definition stub_frame_info : decode_result :=
  mk_decode_result (Some stub_samples) x00 7 x02.

Definition stub_decode (d : unit) (_ : list byte) : unit * decode_result :=
  (d, stub_frame_info).

Definition stub_init (d : unit) (_ : list byte) : unit * (Z * (Z * byte)) :=
  (d, (0, (44100, x02))).

Definition stub_start : run_state unit := mk_run_state 0 0 0 tt [].

Definition stub_argv : list String.string :=
  [String.EmptyString; String.EmptyString; String.EmptyString;
   String.EmptyString].

(** A buffer with its first sync pattern at index 3. *)
Definition sync_sample : list byte := [x12; xff; x0f; xff; xf1; xff; xf9].

(** Two file systems: one that takes every file, and one that takes
    none (an output directory that does not exist). *)
Definition writable (_ : list event) (_ : path) : bool := true.
Definition read_only (_ : list event) (_ : path) : bool := false.

Definition stub_main_on (fopen : list event -> path -> bool) (max_frames : Z)
    (fuel : nat) : outcome (Z * list event) :=
  main (Some tt) (fun d _ _ => d) stub_init stub_decode
    (fun _ => max_frames) (fun _ => Loaded two_frames) fopen fuel stub_argv.

Definition stub_main : Z -> nat -> outcome (Z * list event) :=
  stub_main_on writable.

(** Everything the stub run with room for 100 frames does. *)
Definition stub_log : list event :=
  match effects (stub_main 100 20) with
  | Some l => l
  | None => []
  end.

(** The bookkeeping of the frame loop: [frame_num] counts the frames
    handed to the decoder. *)
Definition frames_counted {decoder_t : Type} (s : run_state decoder_t)
    : Prop :=
  0 <= frame_num s /\
  frame_num s = count is_decode_call (log s) /\
  frame_num s = count is_adts_dump (log s) /\
  frame_num s = count is_decode_error (log s) + count is_frame_report (log s).

(** Every header artifact in a log was made from a parsed header. *)
Definition adts_writes_parsed (l : list event) : Prop :=
  forall dir n content,
    In (WriteBinary (frame_adts_bin dir n) content) l ->
    exists data hdr,
      parse_adts_header data = Some hdr /\ content = adts_header_buf hdr.

(** ** More kinds of effects *)

Definition is_pcm_write (e : event) : bool :=
  match e with
  | WriteBinary (frame_pcm_bin _ _) _ => true
  | _ => false
  end.




Definition is_open_call (e : event) : bool :=
  match e with
  | CallOpen => true
  | _ => false
  end.

Definition is_close_call (e : event) : bool :=
  match e with
  | CallClose => true
  | _ => false
  end.

(** The frame numbers of the calls of [dump_adts_header] in a log, in
    program order: a call shows as the header artifact or as the message
    that the artifact cannot be created. *)
Fixpoint adts_frames (l : list event) : list Z :=
  match l with
  | [] => []
  | WriteBinary (frame_adts_bin _ n) _ :: l' => n :: adts_frames l'
  | Stderr (err_cannot_create (frame_adts_bin _ n)) :: l' =>
      n :: adts_frames l'
  | _ :: l' => adts_frames l'
  end.

(** [0; 1; ...; n - 1]. *)
Definition upto (n : nat) : list Z := map Z.of_nat (seq 0 n).

(** The events that the frame loop appends to the log. *)
Definition is_loop_event (e : event) : bool :=
  match e with
  | Stderr (warn_invalid_header _)
  | Stderr (warn_invalid_frame_length _)
  | Stderr (warn_decode_error _ _)
  | Stderr (err_cannot_create (frame_adts_bin _ _))
  | Stderr (err_cannot_create (frame_pcm_bin _ _))
  | Stdout (msg_frame _ _ _)
  | WriteBinary (frame_adts_bin _ _) _
  | WriteBinary (frame_pcm_bin _ _) _
  | CallDecode => true
  | _ => false
  end.

(** What [dump_adts_header] leaves in the log for frame [n]. *)
Definition adts_dump_of (dir : String.string) (n : Z) (e : event) : Prop :=
  (exists header, e = WriteBinary (frame_adts_bin dir n) header) \/
  e = Stderr (err_cannot_create (frame_adts_bin dir n)).

(** A sample artifact stands right behind the decode call, and that
    behind the header dump of the same frame. *)
Definition pcm_after_header (l : list event) : Prop :=
  forall dir n content,
    In (WriteBinary (frame_pcm_bin dir n) content) l ->
    exists before header_dump after,
      adts_dump_of dir n header_dump /\
      l = before ++ header_dump
                 :: CallDecode
                 :: WriteBinary (frame_pcm_bin dir n) content :: after.

(** The [max_frames] of [main]. *)
Definition max_frames_of (atoi : String.string -> Z)
    (argv : list String.string) : Z :=
  if Z.of_nat (length argv) >? 3
  then to_int (atoi (nth 3 argv String.EmptyString))
  else INT32_MAX.

(** The log of [main] when the frame loop starts. *)
Definition prologue (skipped : list event) (sample_rate channels : Z)
    : list event :=
  skipped ++ [CallOpen; CallSetConfiguration; CallInit;
              Stdout (msg_initialized sample_rate channels);
              Stdout msg_output_directory].

(** ** More streams for the stub decoder

    The state in which the stub run leaves the frame loop, and a stream
    that ends 3 bytes into a third header. *)
Definition stub_end : run_state unit :=
  match decode_loop stub_decode writable two_frames String.EmptyString 100 20
          stub_start with
  | Finished s => s
  | _ => stub_start
  end.

Definition truncated_stream : list byte := frame50 ++ [xff; xf1; x50].

Definition truncated_state : run_state unit := mk_run_state 50 1 0 tt [].

(** * Properties *)

(** ** Bytes and bit operations *)

Lemma byte_val_range (b : byte) : 0 <= byte_val b < 256.
Proof. unfold byte_val. pose proof (Byte.to_N_bounded b). lia. Qed.

Lemma byte_at_range (data : list byte) (i : Z) : 0 <= byte_at data i < 256.
Proof. apply byte_val_range. Qed.

Lemma byte_val_store_uint8 (z : Z) : byte_val (store_uint8 z) = z mod 256.
Proof.
  unfold store_uint8, to_uint8. change (2 ^ 8) with 256.
  pose proof (Z.mod_pos_bound z 256 ltac:(lia)) as Hm.
  destruct (Byte.of_N (Z.to_N (z mod 256))) as [b|] eqn:E.
  - apply Byte.to_of_N in E. unfold byte_val. rewrite E. lia.
  - apply Byte.of_N_None_iff in E. lia.
Qed.

Lemma testbit_small (b n i : Z) :
  0 <= b < 2 ^ n -> n <= i -> Z.testbit b i = false.
Proof.
  intros Hb Hi.
  destruct (Z.eq_dec b 0) as [->|Hnz]; [apply Z.bits_0|].
  apply Z.bits_above_log2; [lia|].
  assert (Z.log2 b < n) by (apply Z.log2_lt_pow2; lia). lia.
Qed.

Lemma land_shiftl_small (a b n : Z) :
  0 <= n -> 0 <= b < 2 ^ n -> Z.land (Z.shiftl a n) b = 0.
Proof.
  intros Hn Hb. apply Z.bits_inj'; intros i Hi.
  rewrite Z.land_spec, Z.bits_0.
  destruct (Z.lt_ge_cases i n).
  - rewrite Z.shiftl_spec_low by lia. reflexivity.
  - rewrite (testbit_small b n i) by lia. apply andb_false_r.
Qed.

(** [(a << n) | b] is [a * 2^n + b] when [b] fits below bit [n]. *)
Lemma lor_shiftl_small (a b n : Z) :
  0 <= n -> 0 <= b < 2 ^ n -> Z.lor (Z.shiftl a n) b = a * 2 ^ n + b.
Proof.
  intros Hn Hb.
  pose proof (land_shiftl_small a b n Hn Hb) as Hl.
  rewrite <- Z.lxor_lor by exact Hl.
  rewrite <- Z.add_nocarry_lxor by exact Hl.
  rewrite Z.shiftl_mul_pow2 by lia. reflexivity.
Qed.

Lemma land_mask (x m k : Z) :
  0 <= k -> m = 2 ^ k - 1 -> Z.land x m = x mod 2 ^ k.
Proof.
  intros Hk ->. replace (2 ^ k - 1) with (Z.ones k).
  - apply Z.land_ones; assumption.
  - rewrite Z.ones_equiv. lia.
Qed.

(** The shift-and-mask expressions of the parser, as quotients and
    remainders. *)
Lemma field_shift_mask (x s m k : Z) :
  0 <= s -> 0 <= k -> m = 2 ^ k - 1 ->
  Z.land (Z.shiftr x s) m = (x / 2 ^ s) mod 2 ^ k.
Proof.
  intros Hs Hk Hm. rewrite (land_mask _ m k) by assumption.
  rewrite Z.shiftr_div_pow2 by assumption. reflexivity.
Qed.

Ltac side := solve [lia | reflexivity].

Lemma channel_config_arith (d2 d3 : Z) :
  0 <= d3 < 256 ->
  Z.lor (Z.shiftl (Z.land d2 0x01) 2) (Z.land (Z.shiftr d3 6) 0x03)
  = (d2 mod 2) * 4 + d3 / 64.
Proof.
  intros H3.
  rewrite (field_shift_mask d3 6 3 2), (land_mask d2 1 1) by side.
  rewrite lor_shiftl_small; change (2 ^ 1) with 2; change (2 ^ 2) with 4;
    change (2 ^ 6) with 64; [|lia|]; Z.div_mod_to_equations; lia.
Qed.

Lemma frame_length_arith (d3 d4 d5 : Z) :
  0 <= d4 < 256 -> 0 <= d5 < 256 ->
  Z.lor (Z.lor (Z.shiftl (Z.land d3 0x03) 11) (Z.shiftl d4 3))
        (Z.land (Z.shiftr d5 5) 0x07)
  = (d3 mod 4) * 2048 + d4 * 8 + d5 / 32.
Proof.
  intros H4 H5.
  rewrite (field_shift_mask d5 5 7 3), (land_mask d3 3 2) by side.
  change (2 ^ 2) with 4; change (2 ^ 3) with 8; change (2 ^ 5) with 32.
  replace (Z.shiftl (d3 mod 4) 11) with (Z.shiftl (d3 mod 4 * 256) 3)
    by (rewrite !Z.shiftl_mul_pow2 by lia; change (2 ^ 3) with 8;
        change (2 ^ 11) with 2048; lia).
  rewrite <- Z.shiftl_lor.
  replace (d3 mod 4 * 256) with (Z.shiftl (d3 mod 4) 8)
    by (rewrite Z.shiftl_mul_pow2 by lia; reflexivity).
  rewrite (lor_shiftl_small (d3 mod 4) d4 8) by (change (2 ^ 8) with 256; lia).
  rewrite lor_shiftl_small; change (2 ^ 3) with 8; change (2 ^ 8) with 256;
    [|lia|]; Z.div_mod_to_equations; lia.
Qed.

Lemma buffer_fullness_arith (d5 d6 : Z) :
  0 <= d6 < 256 ->
  Z.lor (Z.shiftl (Z.land d5 0x1F) 6) (Z.land (Z.shiftr d6 2) 0x3F)
  = (d5 mod 32) * 64 + d6 / 4.
Proof.
  intros H6.
  rewrite (field_shift_mask d6 2 63 6), (land_mask d5 31 5) by side.
  rewrite lor_shiftl_small; change (2 ^ 2) with 4; change (2 ^ 5) with 32;
    change (2 ^ 6) with 64; [|lia|]; Z.div_mod_to_equations; lia.
Qed.

(** ** The header parser *)

Example parse_header_plain : parse_adts_header header_plain = Some hdr_plain.
Proof. reflexivity. Qed.

Example parse_header_short : parse_adts_header [xff; xf1; x50; x80] = None.
Proof. reflexivity. Qed.

Example parse_header_no_sync :
  parse_adts_header [xff; x71; x50; x80; x06; x5f; xfc] = None.
Proof. reflexivity. Qed.

Example parse_header_reserved_index :
  option_map sf_index (parse_adts_header (header_bytes 14 0)) = Some 14.
Proof. reflexivity. Qed.

Lemma top_nibble_test (b : byte) :
  (Z.land (byte_val b) 0xF0 =? 0xF0) = (byte_val b / 16 =? 0xF).
Proof. destruct b; reflexivity. Qed.

(** What a successful parse stores, as quotients and remainders of the
    seven bytes. *)
Lemma parse_adts_header_some (data : list byte) (hdr : adts_header_t) :
  parse_adts_header data = Some hdr ->
  let d := byte_at data in
  7 <= Z.of_nat (length data) /\ d 0 = 0xFF /\ d 1 / 16 = 0xF /\
  header_fields hdr =
    [ 0xFFF; (d 1 / 8) mod 2; (d 1 / 2) mod 4; d 1 mod 2;
      d 2 / 64; (d 2 / 4) mod 16; (d 2 / 2) mod 2;
      (d 2 mod 2) * 4 + d 3 / 64;
      (d 3 / 32) mod 2; (d 3 / 16) mod 2; (d 3 / 8) mod 2; (d 3 / 4) mod 2;
      (d 3 mod 4) * 2048 + d 4 * 8 + d 5 / 32;
      (d 5 mod 32) * 64 + d 6 / 4;
      d 6 mod 4 ].
Proof.
  unfold parse_adts_header, ADTS_HEADER_SIZE. intros H.
  destruct (Z.ltb_spec (Z.of_nat (length data)) 7) as [|Hlen];
    [discriminate H|].
  destruct (Z.eqb_spec (byte_at data 0) 0xFF) as [H0|]; [|discriminate H].
  unfold byte_at at 1 in H. rewrite top_nibble_test in H.
  fold (byte_at data 1) in H.
  destruct (Z.eqb_spec (byte_at data 1 / 16) 0xF) as [H1|]; [|discriminate H].
  cbn [negb orb] in H.
  apply (f_equal (fun o => match o with
                           | Some h => header_fields h
                           | None => []
                           end)) in H.
  cbv beta iota in H.
  pose proof (byte_at_range data 1) as B1.
  pose proof (byte_at_range data 2) as B2.
  pose proof (byte_at_range data 3) as B3.
  pose proof (byte_at_range data 4) as B4.
  pose proof (byte_at_range data 5) as B5.
  pose proof (byte_at_range data 6) as B6.
  split; [assumption|]. split; [assumption|]. split; [assumption|].
  rewrite <- H. clear H.
  cbv beta iota delta [header_fields syncword id layer protection_absent
    profile sf_index private_bit channel_config original home copyright_bit
    copyright_start frame_length buffer_fullness num_raw_blocks].
  rewrite channel_config_arith, frame_length_arith, buffer_fullness_arith
    by assumption.
  rewrite (field_shift_mask _ 3 1 1), (field_shift_mask _ 1 3 2),
    (field_shift_mask _ 6 3 2), (field_shift_mask _ 2 15 4),
    (field_shift_mask _ 1 1 1), (field_shift_mask _ 5 1 1),
    (field_shift_mask _ 4 1 1), (field_shift_mask _ 3 1 1),
    (field_shift_mask _ 2 1 1), (land_mask (byte_at data 1) 1 1),
    (land_mask (byte_at data 6) 3 2) by side.
  unfold to_uint8, to_uint16.
  change (2 ^ 1) with 2; change (2 ^ 2) with 4; change (2 ^ 3) with 8;
    change (2 ^ 4) with 16; change (2 ^ 5) with 32; change (2 ^ 6) with 64;
    change (2 ^ 8) with 256; change (2 ^ 16) with 65536.
  repeat (apply (f_equal2 (@cons Z)); [Z.div_mod_to_equations; lia|]).
  reflexivity.
Qed.

Lemma be_value_7 (b0 b1 b2 b3 b4 b5 b6 : byte) :
  be_value [b0; b1; b2; b3; b4; b5; b6]
  = byte_val b0 * 2 ^ 48 + byte_val b1 * 2 ^ 40 + byte_val b2 * 2 ^ 32
    + byte_val b3 * 2 ^ 24 + byte_val b4 * 2 ^ 16 + byte_val b5 * 2 ^ 8
    + byte_val b6.
Proof. unfold be_value. cbn [fold_left]. lia. Qed.

(** C4. When [parse_adts_header] succeeds, the fields of the record, in
    stream order, are the 7 header bytes read as one big-endian 56-bit
    number and cut from the most significant bit down into fields of
    widths 12, 1, 2, 1, 2, 4, 1, 3, 1, 1, 1, 1, 13, 11 and 2 bits. *)
Theorem parse_adts_header_bit_fields (data : list byte) (hdr : adts_header_t) :
  parse_adts_header data = Some hdr ->
  header_fields hdr
  = split_fields (be_value (firstn 7 data)) 56 adts_field_widths.
Proof.
  intros H. apply parse_adts_header_some in H.
  destruct H as (Hlen & H0 & H1 & ->).
  destruct data as [|b0 [|b1 [|b2 [|b3 [|b4 [|b5 [|b6 rest]]]]]]];
    try (cbn [length] in Hlen; lia).
  cbn [firstn]. rewrite be_value_7.
  unfold byte_at in *.
  change (Z.to_nat 0) with 0%nat in *. change (Z.to_nat 1) with 1%nat in *.
  change (Z.to_nat 2) with 2%nat. change (Z.to_nat 3) with 3%nat.
  change (Z.to_nat 4) with 4%nat. change (Z.to_nat 5) with 5%nat.
  change (Z.to_nat 6) with 6%nat. cbn [nth] in *.
  pose proof (byte_val_range b0) as B0. pose proof (byte_val_range b1) as B1.
  pose proof (byte_val_range b2) as B2. pose proof (byte_val_range b3) as B3.
  pose proof (byte_val_range b4) as B4. pose proof (byte_val_range b5) as B5.
  pose proof (byte_val_range b6) as B6.
  generalize dependent (byte_val b0). generalize dependent (byte_val b1).
  generalize (byte_val b2) B2. generalize (byte_val b3) B3.
  generalize (byte_val b4) B4. generalize (byte_val b5) B5.
  generalize (byte_val b6) B6. clear.
  intros d6 B6 d5 B5 d4 B4 d3 B3 d2 B2 d1 H1 B1 d0 H0 B0.
  unfold adts_field_widths. cbn [split_fields].
  repeat (apply (f_equal2 (@cons Z));
          [cbn [Z.sub Z.opp Z.add Z.pos_sub Pos.add Pos.succ Pos.pred_double
                Z.succ_double Z.pred_double Z.double Pos.add_carry];
           match goal with
           | |- context [2 ^ ?n] =>
               let v := eval vm_compute in (2 ^ n) in change (2 ^ n) with v
           end;
           repeat match goal with
           | |- context [2 ^ ?n] =>
               let v := eval vm_compute in (2 ^ n) in change (2 ^ n) with v
           end;
           Z.div_mod_to_equations; lia|]).
  reflexivity.
Qed.

Lemma parse_adts_header_none (data : list byte) :
  parse_adts_header data = None <->
  Z.of_nat (length data) < 7 \/ ~ sync_pattern data.
Proof.
  unfold parse_adts_header, ADTS_HEADER_SIZE, sync_pattern.
  destruct (Z.ltb_spec (Z.of_nat (length data)) 7) as [Hlen|Hlen].
  { split; [left; assumption|reflexivity]. }
  unfold byte_at at 2. rewrite top_nibble_test. fold (byte_at data 1).
  destruct (Z.eqb_spec (byte_at data 0) 0xFF) as [H0|H0];
    destruct (Z.eqb_spec (byte_at data 1 / 16) 0xF) as [H1|H1];
    cbn [negb orb]; split; intros H; try reflexivity; try discriminate H;
    try (right; intros [? ?]; contradiction).
  destruct H as [H|H]; [lia|]. exfalso. apply H. split; assumption.
Qed.

Lemma parse_adts_header_bit_fields_witness :
  parse_adts_header header_plain = Some hdr_plain /\
  header_fields hdr_plain
  = split_fields (be_value (firstn 7 header_plain)) 56 adts_field_widths.
Proof.
  split; [reflexivity|].
  apply (parse_adts_header_bit_fields header_plain hdr_plain). reflexivity.
Defined.

(** C5. [parse_adts_header] fails exactly when fewer than 7 bytes remain
    or the first two bytes are not the sync pattern; whatever the sampling
    frequency index (13..15 included) and the frame length, a header that
    carries them is accepted. *)
Theorem parse_adts_header_invalid_iff (data : list byte) (sfi fl : Z) :
  (parse_adts_header data = None <->
   Z.of_nat (length data) < 7 \/ ~ sync_pattern data) /\
  (0 <= sfi < 16 -> 0 <= fl < 8192 ->
   exists hdr, parse_adts_header (header_bytes sfi fl) = Some hdr /\
               sf_index hdr = sfi /\ frame_length hdr = fl).
Proof.
  split; [apply parse_adts_header_none|].
  intros Hs Hf.
  destruct (parse_adts_header (header_bytes sfi fl)) as [hdr|] eqn:E.
  - exists hdr. split; [reflexivity|].
    apply parse_adts_header_some in E. destruct E as (_ & _ & _ & E).
    unfold header_fields in E.
    injection E as _ _ _ _ _ Esf _ _ _ _ _ _ Efl _ _.
    rewrite Esf, Efl. clear Esf Efl.
    unfold header_bytes, byte_at.
    change (Z.to_nat 2) with 2%nat. change (Z.to_nat 3) with 3%nat.
    change (Z.to_nat 4) with 4%nat. change (Z.to_nat 5) with 5%nat.
    cbn [nth]. rewrite !byte_val_store_uint8.
    split; Z.div_mod_to_equations; lia.
  - apply parse_adts_header_none in E. exfalso.
    destruct E as [E|E]; [cbn in E; lia|].
    apply E. split; reflexivity.
Qed.

Lemma parse_adts_header_invalid_iff_witness :
  (parse_adts_header header_plain = None <->
   Z.of_nat (length header_plain) < 7 \/ ~ sync_pattern header_plain) /\
  0 <= 15 < 16 /\ 0 <= 8191 < 8192 /\
  exists hdr, parse_adts_header (header_bytes 15 8191) = Some hdr /\
              sf_index hdr = 15 /\ frame_length hdr = 8191.
Proof.
  destruct (parse_adts_header_invalid_iff header_plain 15 8191) as [A B].
  split; [exact A|]. split; [lia|]. split; [lia|]. apply B; lia.
Defined.

(** ** The header artifact *)

Example adts_header_buf_plain :
  adts_header_buf hdr_plain
  = [x0f; xff; x00; x00; x01; x01; x04; x00; x02; x00; x00; x00; x32; x07;
     xff; x00].
Proof. reflexivity. Qed.

Lemma length_adts_header_buf (hdr : adts_header_t) :
  length (adts_header_buf hdr) = 16%nat.
Proof. reflexivity. Qed.

Lemma dump_adts_header_content (fopen : path -> bool) (dir : String.string)
    (frame : Z) (hdr : adts_header_t) :
  dump_adts_header fopen dir frame hdr
  = if fopen (frame_adts_bin dir frame)
    then WriteBinary (frame_adts_bin dir frame) (adts_header_buf hdr)
    else Stderr (err_cannot_create (frame_adts_bin dir frame)).
Proof.
  reflexivity.
Qed.

Lemma dump_adts_header_cases (fopen : path -> bool) (dir : String.string)
    (frame : Z) (hdr : adts_header_t) :
  dump_adts_header fopen dir frame hdr
  = WriteBinary (frame_adts_bin dir frame) (adts_header_buf hdr)
  \/
  dump_adts_header fopen dir frame hdr
  = Stderr (err_cannot_create (frame_adts_bin dir frame)).
Proof.
  rewrite dump_adts_header_content.
  destruct (fopen _); [left|right]; reflexivity.
Qed.

Lemma dump_binary_cases (fopen : path -> bool) (p : path) (data : list byte)
    (size : Z) :
  dump_binary fopen p data size = WriteBinary p (firstn (Z.to_nat size) data)
  \/
  dump_binary fopen p data size = Stderr (err_cannot_create p).
Proof.
  unfold dump_binary. destruct (fopen p); [left|right]; reflexivity.
Qed.

Lemma read_u16be_store (x : Z) :
  0 <= x < 65536 ->
  byte_val (store_uint8 (Z.land (Z.shiftr x 8) 0xFF)) * 256
  + byte_val (store_uint8 (Z.land x 0xFF)) = x.
Proof.
  intros Hx. rewrite !byte_val_store_uint8.
  rewrite (field_shift_mask x 8 255 8), (land_mask x 255 8) by side.
  change (2 ^ 8) with 256. Z.div_mod_to_equations. lia.
Qed.

(** What can be read back from the 16 bytes of a parsed header. *)
Lemma adts_header_buf_read_back (data : list byte) (hdr : adts_header_t) :
  parse_adts_header data = Some hdr ->
  let buf := adts_header_buf hdr in
  read_u16be buf 0 = syncword hdr /\
  read_u8 buf 2 = id hdr /\
  read_u8 buf 3 = layer hdr /\
  read_u8 buf 4 = protection_absent hdr /\
  read_u8 buf 5 = profile hdr /\
  read_u8 buf 6 = sf_index hdr /\
  read_u8 buf 7 = private_bit hdr /\
  read_u8 buf 8 = channel_config hdr /\
  read_u8 buf 9 = original hdr /\
  read_u8 buf 10 = home hdr /\
  read_u16be buf 11 = frame_length hdr /\
  read_u16be buf 13 = buffer_fullness hdr /\
  read_u8 buf 15 = num_raw_blocks hdr.
Proof.
  intros H. apply parse_adts_header_some in H.
  destruct H as (_ & _ & _ & E). unfold header_fields in E.
  pose proof (byte_at_range data 1) as B1.
  pose proof (byte_at_range data 2) as B2.
  pose proof (byte_at_range data 3) as B3.
  pose proof (byte_at_range data 4) as B4.
  pose proof (byte_at_range data 5) as B5.
  pose proof (byte_at_range data 6) as B6.
  injection E as E0 E1 E2 E3 E4 E5 E6 E7 E8 E9 E10 E11 E12 E13 E14.
  unfold read_u16be, read_u8, adts_header_buf. cbn [nth].
  rewrite !read_u16be_store, !byte_val_store_uint8;
    repeat split;
    rewrite ?E0, ?E1, ?E2, ?E3, ?E4, ?E5, ?E6, ?E7, ?E8, ?E9, ?E12, ?E13, ?E14;
    Z.div_mod_to_equations; lia.
Qed.

(** C2 (as amended). The header artifact of a parsed frame is 16 bytes:
    the sync marker in bytes 0..1, nine single-byte fields in bytes 2..10
    (id, layer, protection_absent, profile, sf_index, private_bit,
    channel_config, original, home), [frame_length] and [buffer_fullness]
    big-endian in bytes 11..12 and 13..14, and the raw-block count in byte
    15.  These 16 bytes are the whole record.  They are what
    [dump_adts_header] writes whenever the file system lets it create the
    file; otherwise it writes nothing and reports the path. *)
Theorem dump_adts_header_layout (fopen : path -> bool) (dir : String.string)
    (frame : Z) (data : list byte) (hdr : adts_header_t) :
  parse_adts_header data = Some hdr ->
  exists buf,
    dump_adts_header fopen dir frame hdr
    = (if fopen (frame_adts_bin dir frame)
       then WriteBinary (frame_adts_bin dir frame) buf
       else Stderr (err_cannot_create (frame_adts_bin dir frame))) /\
    length buf = 16%nat /\
    read_u16be buf 0 = syncword hdr /\
    map (read_u8 buf) [2; 3; 4; 5; 6; 7; 8; 9; 10]%nat
    = [ id hdr; layer hdr; protection_absent hdr; profile hdr; sf_index hdr;
        private_bit hdr; channel_config hdr; original hdr; home hdr ] /\
    read_u16be buf 11 = frame_length hdr /\
    read_u16be buf 13 = buffer_fullness hdr /\
    read_u8 buf 15 = num_raw_blocks hdr.
Proof.
  intros H. exists (adts_header_buf hdr).
  pose proof (adts_header_buf_read_back data hdr H) as R. cbv zeta in R.
  destruct R as (R0 & R2 & R3 & R4 & R5 & R6 & R7 & R8 & R9 & R10 & R11
                 & R13 & R15).
  split; [apply dump_adts_header_content|].
  split; [apply length_adts_header_buf|].
  cbn [map]. rewrite R0, R2, R3, R4, R5, R6, R7, R8, R9, R10, R11, R13, R15.
  repeat split.
Qed.

Lemma dump_adts_header_layout_witness :
  parse_adts_header header_plain = Some hdr_plain /\
  exists buf,
    dump_adts_header (writable []) String.EmptyString 0 hdr_plain
    = WriteBinary (frame_adts_bin String.EmptyString 0) buf /\
    length buf = 16%nat /\
    read_u16be buf 0 = syncword hdr_plain /\
    map (read_u8 buf) [2; 3; 4; 5; 6; 7; 8; 9; 10]%nat
    = [ id hdr_plain; layer hdr_plain; protection_absent hdr_plain;
        profile hdr_plain; sf_index hdr_plain; private_bit hdr_plain;
        channel_config hdr_plain; original hdr_plain; home hdr_plain ] /\
    read_u16be buf 11 = frame_length hdr_plain /\
    read_u16be buf 13 = buffer_fullness hdr_plain /\
    read_u8 buf 15 = num_raw_blocks hdr_plain.
Proof.
  split; [reflexivity|].
  apply (dump_adts_header_layout (writable []) String.EmptyString 0
           header_plain hdr_plain).
  reflexivity.
Defined.

(** C2 (as stated) fails: no byte of the record is reserved or unused.
    At each of the 16 positions two header records are written
    differently, and behind the sync marker, at each of the positions
    2..15, so are the two parsed headers [header_low] and [header_high]:
    every byte carries a header field. *)
Lemma dump_adts_header_no_reserved_byte :
  ~ (exists i : nat, (i < 16)%nat /\
       forall h1 h2 : adts_header_t,
         nth i (adts_header_buf h1) x00 = nth i (adts_header_buf h2) x00) /\
  ~ (exists i : nat, (2 <= i < 16)%nat /\
       forall data1 data2 h1 h2,
         parse_adts_header data1 = Some h1 ->
         parse_adts_header data2 = Some h2 ->
         nth i (adts_header_buf h1) x00 = nth i (adts_header_buf h2) x00).
Proof.
  split.
  - intros (i & Hi & H). specialize (H hdr_zeros hdr_ones).
    do 16 (destruct i as [|i]; [vm_compute in H; discriminate H|]).
    lia.
  - intros (i & Hi & H).
    destruct (parse_adts_header header_low) as [h1|] eqn:P1;
      [|vm_compute in P1; discriminate P1].
    destruct (parse_adts_header header_high) as [h2|] eqn:P2;
      [|vm_compute in P2; discriminate P2].
    specialize (H header_low header_high h1 h2 P1 P2).
    vm_compute in P1, P2.
    injection P1 as <-. injection P2 as <-.
    do 2 (destruct i as [|i]; [lia|]).
    do 14 (destruct i as [|i]; [vm_compute in H; discriminate H|]).
    lia.
Qed.

(** C1 (as amended). For every buffer that [parse_adts_header] accepts,
    7 bytes long or longer, reading the 16-byte artifact back field by
    field gives the exact values of the record for the syncword, id,
    layer, protection_absent, profile, sf_index, private_bit,
    channel_config, original, home, frame_length, buffer_fullness and
    num_raw_blocks: every field of the header but the two copyright bits,
    for which the layout has no place.  The artifact is there to be read
    back whenever the file system lets [dump_adts_header] create it. *)
Theorem adts_header_round_trip (fopen : path -> bool) (dir : String.string)
    (frame : Z) (data : list byte) (hdr : adts_header_t) :
  parse_adts_header data = Some hdr ->
  exists buf,
    dump_adts_header fopen dir frame hdr
    = (if fopen (frame_adts_bin dir frame)
       then WriteBinary (frame_adts_bin dir frame) buf
       else Stderr (err_cannot_create (frame_adts_bin dir frame))) /\
    read_adts_artifact buf = stored_fields hdr.
Proof.
  intros H. exists (adts_header_buf hdr).
  split; [apply dump_adts_header_content|].
  pose proof (adts_header_buf_read_back data hdr H) as R. cbv zeta in R.
  destruct R as (R0 & R2 & R3 & R4 & R5 & R6 & R7 & R8 & R9 & R10 & R11
                 & R13 & R15).
  unfold read_adts_artifact, stored_fields.
  rewrite R0, R2, R3, R4, R5, R6, R7, R8, R9, R10, R11, R13, R15.
  reflexivity.
Qed.

Lemma adts_header_round_trip_witness :
  length header_plain = 7%nat /\
  parse_adts_header header_plain = Some hdr_plain /\
  exists buf,
    dump_adts_header (writable []) String.EmptyString 0 hdr_plain
    = WriteBinary (frame_adts_bin String.EmptyString 0) buf /\
    read_adts_artifact buf = stored_fields hdr_plain.
Proof.
  split; [reflexivity|]. split; [reflexivity|].
  apply (adts_header_round_trip (writable []) String.EmptyString 0
           header_plain hdr_plain).
  reflexivity.
Defined.

(** C1 (as stated) fails for the two copyright bits.  The headers
    [header_plain] and [header_copyrighted] are both accepted and differ
    in [copyright_bit] and [copyright_start], yet their 16-byte artifacts
    are equal: [dump_adts_header] stores neither field, so nothing that
    reads the artifact back can reproduce every field of the record. *)
Lemma dump_adts_header_drops_copyright :
  (exists ha hb,
     parse_adts_header header_plain = Some ha /\
     parse_adts_header header_copyrighted = Some hb /\
     copyright_bit ha = 0 /\ copyright_bit hb = 1 /\
     copyright_start ha = 0 /\ copyright_start hb = 1 /\
     adts_header_buf ha = adts_header_buf hb) /\
  ~ (exists read_back : list byte -> adts_header_t,
       forall data hdr,
         length data = 7%nat ->
         parse_adts_header data = Some hdr ->
         read_back (adts_header_buf hdr) = hdr).
Proof.
  assert (E : exists ha hb,
     parse_adts_header header_plain = Some ha /\
     parse_adts_header header_copyrighted = Some hb /\
     copyright_bit ha = 0 /\ copyright_bit hb = 1 /\
     copyright_start ha = 0 /\ copyright_start hb = 1 /\
     adts_header_buf ha = adts_header_buf hb).
  { do 2 eexists. repeat split; vm_compute; reflexivity. }
  split; [exact E|].
  destruct E as (ha & hb & Pa & Pb & Ca & Cb & _ & _ & Eq).
  intros (read_back & R).
  pose proof (R header_plain ha eq_refl Pa) as Ra.
  pose proof (R header_copyrighted hb eq_refl Pb) as Rb.
  rewrite Eq in Ra. rewrite Ra in Rb. rewrite Rb in Ca. lia.
Qed.

(** ** The sync scanner *)

Example find_adts_sync_sample : find_adts_sync sync_sample = 3.
Proof. reflexivity. Qed.

Example find_adts_sync_last_byte : find_adts_sync [x00; xf1; xff] = -1.
Proof. reflexivity. Qed.

Example find_adts_sync_empty : find_adts_sync [] = -1.
Proof. reflexivity. Qed.

Lemma to_int_small (i : Z) : - 2 ^ 31 <= i <= INT32_MAX -> to_int i = i.
Proof.
  unfold to_int, INT32_MAX. change (2 ^ 31) with 2147483648.
  change (2 ^ 32) with 4294967296. intros H.
  Z.div_mod_to_equations. lia.
Qed.

(** A non-negative [(int)i] is never beyond [i]. *)
Lemma to_int_le (i : Z) : 0 <= i -> 0 <= to_int i -> to_int i <= i.
Proof.
  unfold to_int. change (2 ^ 31) with 2147483648.
  change (2 ^ 32) with 4294967296. intros H.
  Z.div_mod_to_equations. lia.
Qed.

Lemma sync_test_iff (data : list byte) (i : Z) :
  (byte_at data i =? 0xFF) && (Z.land (byte_at data (i + 1)) 0xF0 =? 0xF0)
  = true
  <-> byte_at data i = 0xFF /\ byte_at data (i + 1) / 16 = 0xF.
Proof.
  unfold byte_at at 2. rewrite top_nibble_test. fold (byte_at data (i + 1)).
  rewrite andb_true_iff, !Z.eqb_eq. reflexivity.
Qed.

(** The loop started at [i] with the remaining [len - i] iterations of
    fuel either finds nothing from [i] on, or stops at the lowest sync
    index [k >= i] and returns [(int)k]. *)
Lemma find_adts_sync_loop_spec (data : list byte) (fuel : nat) :
  forall i : Z,
    0 <= i -> Z.of_nat fuel + i = Z.of_nat (length data) ->
    (find_adts_sync_loop fuel data (Z.of_nat (length data)) i = -1 /\
     forall j, i <= j -> ~ is_sync_index data j)
    \/
    (exists k, i <= k /\ is_sync_index data k /\
               (forall j, i <= j -> is_sync_index data j -> k <= j) /\
               find_adts_sync_loop fuel data (Z.of_nat (length data)) i
               = to_int k).
Proof.
  induction fuel as [|fuel IH]; intros i Hi Hfuel.
  - left. split; [reflexivity|]. intros j Hj (_ & Hlt & _). lia.
  - cbn [find_adts_sync_loop].
    destruct (Z.ltb_spec (i + 1) (Z.of_nat (length data))) as [Hlt|Hge].
    + destruct ((byte_at data i =? 0xFF)
                && (Z.land (byte_at data (i + 1)) 0xF0 =? 0xF0)) eqn:T.
      * right. exists i. apply sync_test_iff in T. destruct T as [T0 T1].
        split; [lia|]. split; [unfold is_sync_index; auto|].
        split; [intros; lia|reflexivity].
      * assert (Hno : ~ is_sync_index data i).
        { intros (_ & _ & S0 & S1).
          assert (T' : (byte_at data i =? 0xFF)
                       && (Z.land (byte_at data (i + 1)) 0xF0 =? 0xF0) = true)
            by (apply sync_test_iff; auto).
          congruence. }
        destruct (IH (i + 1)) as [[R N]|(k & Hk & Sk & Mk & R)]; try lia.
        -- left. split; [exact R|]. intros j Hj Sj.
           destruct (Z.eq_dec j i) as [->|]; [auto|]. apply (N j); [lia|auto].
        -- right. exists k. split; [lia|]. split; [exact Sk|].
           split; [|exact R]. intros j Hj Sj.
           destruct (Z.eq_dec j i) as [->|]; [contradiction|].
           apply Mk; [lia|auto].
    + left. split; [reflexivity|]. intros j Hj (_ & Hlt & _). lia.
Qed.

Lemma find_adts_sync_spec (data : list byte) :
  (find_adts_sync data = -1 /\ forall j, ~ is_sync_index data j)
  \/
  (exists k, is_sync_index data k /\
             (forall j, is_sync_index data j -> k <= j) /\
             find_adts_sync data = to_int k).
Proof.
  unfold find_adts_sync.
  destruct (find_adts_sync_loop_spec data (length data) 0)
    as [[R N]|(k & Hk & Sk & Mk & R)]; try lia.
  - left. split; [exact R|]. intros j Sj. apply (N j); [|exact Sj].
    destruct Sj. lia.
  - right. exists k. split; [exact Sk|]. split; [|exact R].
    intros j Sj. apply Mk; [|exact Sj]. destruct Sj. lia.
Qed.

Lemma length_slice (data : list byte) (p : Z) :
  0 <= p <= Z.of_nat (length data) ->
  Z.of_nat (length (slice data p)) = Z.of_nat (length data) - p.
Proof. intros H. unfold slice. rewrite length_skipn. lia. Qed.

Lemma byte_at_slice (data : list byte) (p i : Z) :
  0 <= p -> 0 <= i -> byte_at (slice data p) i = byte_at data (p + i).
Proof.
  intros Hp Hi. unfold byte_at, slice. rewrite nth_skipn.
  replace (Z.to_nat p + Z.to_nat i)%nat with (Z.to_nat (p + i)) by lia.
  reflexivity.
Qed.

Lemma is_sync_index_slice (data : list byte) (p k : Z) :
  0 <= p <= Z.of_nat (length data) ->
  (is_sync_index (slice data p) k <-> 0 <= k /\ is_sync_index data (p + k)).
Proof.
  intros Hp. unfold is_sync_index. rewrite length_slice by assumption.
  split.
  - intros (H0 & H1 & H2 & H3).
    rewrite !byte_at_slice in * by lia.
    replace (p + k + 1) with (p + (k + 1)) by lia. repeat split; auto; lia.
  - intros (H0 & _ & H1 & H2 & H3).
    rewrite !byte_at_slice by lia.
    replace (p + k + 1) with (p + (k + 1)) in * by lia.
    repeat split; auto; lia.
Qed.





(** ** The decode driver *)

Lemma to_size_t_small (z : Z) : 0 <= z <= SIZE_MAX -> to_size_t z = z.
Proof. unfold to_size_t, SIZE_MAX. intros H. apply Z.mod_small. lia. Qed.

Lemma parse_frame_length_range (data : list byte) (hdr : adts_header_t) :
  parse_adts_header data = Some hdr -> 0 <= frame_length hdr < 8192.
Proof.
  intros H. apply parse_adts_header_some in H.
  destruct H as (_ & _ & _ & E). unfold header_fields in E.
  injection E as _ _ _ _ _ _ _ _ _ _ _ _ E _ _. rewrite E.
  pose proof (byte_at_range data 3). pose proof (byte_at_range data 4).
  pose proof (byte_at_range data 5). Z.div_mod_to_equations. lia.
Qed.

Lemma find_adts_sync_bound (data : list byte) :
  0 <= find_adts_sync data ->
  find_adts_sync data + 1 < Z.of_nat (length data).
Proof.
  intros H.
  destruct (find_adts_sync_spec data) as [[R _]|(k & Sk & _ & R)]; [lia|].
  rewrite R in *. destruct Sk as (Hk & Hlt & _).
  pose proof (to_int_le k Hk H). lia.
Qed.

Lemma count_app (p : event -> bool) (l l' : list event) :
  count p (l ++ l') = count p l + count p l'.
Proof. unfold count. rewrite filter_app, length_app. lia. Qed.



Lemma to_int_range (z : Z) : - 2 ^ 31 <= to_int z <= INT32_MAX.
Proof.
  unfold to_int, INT32_MAX. change (2 ^ 31) with 2147483648.
  change (2 ^ 32) with 4294967296. Z.div_mod_to_equations. lia.
Qed.

Lemma parsed_sync_prefix (data : list byte) (hdr : adts_header_t) :
  parse_adts_header data = Some hdr ->
  syncword hdr = 0xFFF /\ firstn 2 (adts_header_buf hdr) = [x0f; xff].
Proof.
  intros H. apply parse_adts_header_some in H.
  destruct H as (_ & _ & _ & E). unfold header_fields in E.
  injection E as E _ _ _ _ _ _ _ _ _ _ _ _ _ _.
  split; [exact E|]. unfold adts_header_buf. cbn [firstn]. rewrite E.
  reflexivity.
Qed.

Section DriverProperties.

Variable decoder_t : Type.
Variable NeAACDecDecode : decoder_t -> list byte -> decoder_t * decode_result.
Variable fopen : list event -> path -> bool.
Variable file_data : list byte.
Variable output_dir : String.string.
Variable max_frames : Z.

Local Abbreviation body :=
  (loop_body NeAACDecDecode fopen file_data output_dir max_frames).
Local Abbreviation loop :=
  (decode_loop NeAACDecDecode fopen file_data output_dir max_frames).
Local Abbreviation file_size := (Z.of_nat (length file_data)).

Ltac body_cases H :=
  unfold loop_body in H;
  repeat match type of H with
  | context [match ?x with _ => _ end] => destruct x eqn:?
  end;
  try discriminate H.

Lemma loop_body_leave (s s' : run_state decoder_t) :
  body s = Leave s' -> s' = s.
Proof.
  intros H. body_cases H. all: congruence.
Qed.

(** Where the scanner lands from the cursor of [s]. *)
Lemma sync_offset_in_range (s : run_state decoder_t) :
  file_size <= SIZE_MAX -> 0 <= pos s < file_size ->
  0 <= find_adts_sync (slice file_data (pos s)) ->
  let sync := pos s + find_adts_sync (slice file_data (pos s)) in
  to_size_t sync = sync /\ pos s <= sync /\ sync + 1 < file_size.
Proof.
  intros Hmax Hpos Hfound sync.
  pose proof (find_adts_sync_bound _ Hfound) as B.
  rewrite length_slice in B by lia.
  subst sync. rewrite to_size_t_small by lia. lia.
Qed.

Lemma loop_body_again (s s' : run_state decoder_t) :
  file_size + 8191 <= SIZE_MAX ->
  0 <= pos s ->
  body s = Again s' ->
  let sync := pos s + find_adts_sync (slice file_data (pos s)) in
  pos s <= sync /\
  ((exists w,
      (w = warn_invalid_header (frame_num s) \/
       w = warn_invalid_frame_length (frame_num s)) /\
      log s' = log s ++ [Stderr w] /\
      pos s' = sync + 1 /\ pos s' <= file_size)
   \/
   (exists hdr tail,
      parse_adts_header (slice file_data sync) = Some hdr /\
      log s' = log s ++ dump_adts_header (fopen (log s)) output_dir
                          (frame_num s) hdr
                        :: CallDecode :: tail /\
      7 <= frame_length hdr /\
      pos s' = sync + frame_length hdr /\ pos s' <= file_size)).
Proof.
  intros Hmax Hpos H sync.
  unfold loop_body in H.
  destruct ((pos s <? file_size) && (frame_num s <? max_frames)) eqn:C;
    [|discriminate H].
  apply andb_true_iff in C. destruct C as [C _]. apply Z.ltb_lt in C.
  destruct (Z.ltb_spec (find_adts_sync (slice file_data (pos s))) 0)
    as [|Hfound]; [discriminate H|].
  destruct (sync_offset_in_range s) as (E & Hle & Hlt); try lia.
  cbv zeta in E, Hle, Hlt, H. rewrite E in H.
  fold sync in E, Hle, Hlt, H.
  split; [exact Hle|].
  destruct (parse_adts_header (slice file_data sync)) as [hdr|] eqn:P.
  - pose proof (parse_frame_length_range _ _ P) as Hfl.
    rewrite (to_size_t_small (sync + 1)),
      (to_size_t_small (sync + frame_length hdr)) in H by lia.
    destruct (Z.ltb_spec (frame_length hdr) ADTS_HEADER_SIZE) as [|H7];
      cbn [orb] in H.
    + injection H as <-. left. eexists. cbn [log pos].
      split; [right; reflexivity|]. split; [reflexivity|]. lia.
    + destruct (Z.gtb_spec (sync + frame_length hdr) file_size) as [|Hfit].
      * injection H as <-. left. eexists. cbn [log pos].
        split; [right; reflexivity|]. split; [reflexivity|]. lia.
      * right. exists hdr. unfold ADTS_HEADER_SIZE in H7.
        destruct (NeAACDecDecode (decoder s) (slice file_data sync))
          as [decoder1 frame_info].
        repeat match type of H with
        | context [match ?x with _ => _ end] => destruct x eqn:?
        end; try discriminate H; injection H as <-; cbn [log pos];
        rewrite <- app_assoc; cbn [app]; eexists;
        (split; [reflexivity|]); (split; [reflexivity|]); lia.
  - rewrite (to_size_t_small (sync + 1)) in H by lia.
    injection H as <-. left. eexists. cbn [log pos].
    split; [left; reflexivity|]. split; [reflexivity|]. lia.
Qed.

Ltac decoded_case C P Hd :=
  right; cbn [frame_num log]; split; [exact C|]; split; [reflexivity|];
  do 4 eexists; split; [exact P|]; split; [exact Hd|];
  rewrite <- app_assoc; cbn [app]; split; [reflexivity|].

(** The effects of one trip through the loop. *)
Lemma loop_body_effects (s : run_state decoder_t) :
  match body s with
  | Leave s' => s' = s
  | Again s' =>
      (frame_num s' = frame_num s /\
       exists w, log s' = log s ++ [Stderr w] /\
                 (w = warn_invalid_header (frame_num s) \/
                  w = warn_invalid_frame_length (frame_num s)))
      \/
      (frame_num s < max_frames /\
       frame_num s' = to_int (frame_num s + 1) /\
       exists data hdr header_dump tail,
         parse_adts_header data = Some hdr /\
         (header_dump
          = WriteBinary (frame_adts_bin output_dir (frame_num s))
              (adts_header_buf hdr) \/
          header_dump
          = Stderr (err_cannot_create
                      (frame_adts_bin output_dir (frame_num s)))) /\
         log s' = log s ++ header_dump :: CallDecode :: tail /\
         ((exists e, tail = [Stderr (warn_decode_error (frame_num s) e)]) \/
          (exists n c, tail = [Stdout (msg_frame (frame_num s) n c)]) \/
          (exists content n c,
             tail = [WriteBinary (frame_pcm_bin output_dir (frame_num s))
                       content;
                     Stdout (msg_frame (frame_num s) n c)]) \/
          (exists n c,
             tail = [Stderr (err_cannot_create
                               (frame_pcm_bin output_dir (frame_num s)));
                     Stdout (msg_frame (frame_num s) n c)])))
  | DivideByZero before =>
      exists data hdr header_dump,
        parse_adts_header data = Some hdr /\
        (header_dump
         = WriteBinary (frame_adts_bin output_dir (frame_num s))
             (adts_header_buf hdr) \/
         header_dump
         = Stderr (err_cannot_create
                     (frame_adts_bin output_dir (frame_num s)))) /\
        before = log s ++ [header_dump; CallDecode]
  end.
Proof.
  unfold loop_body.
  destruct ((pos s <? file_size) && (frame_num s <? max_frames)) eqn:C;
    [|reflexivity].
  apply andb_true_iff in C. destruct C as [_ C]. apply Z.ltb_lt in C.
  cbv zeta.
  destruct (find_adts_sync (slice file_data (pos s)) <? 0); [reflexivity|].
  destruct (parse_adts_header _) as [hdr|] eqn:P.
  - destruct ((frame_length hdr <? ADTS_HEADER_SIZE) || _).
    + left. cbn [frame_num log]. split; [reflexivity|]. eexists.
      split; [reflexivity|]. right. reflexivity.
    + destruct (NeAACDecDecode _ _) as [decoder1 frame_info].
      pose proof (dump_adts_header_cases (fopen (log s)) output_dir
                    (frame_num s) hdr) as Hd.
      set (header_dump := dump_adts_header _ _ _ _) in *.
      clearbody header_dump.
      destruct (negb _).
      { decoded_case C P Hd. left. eexists. reflexivity. }
      destruct (sample_buffer frame_info) as [samples|].
      * destruct (fi_samples frame_info >? 0).
        -- destruct (byte_val (fi_channels frame_info) =? 0).
           ++ do 3 eexists. split; [exact P|]. split; [exact Hd|reflexivity].
           ++ decoded_case C P Hd. right. right. unfold dump_pcm.
              match goal with
              | |- context [dump_binary ?f ?p ?d ?z] =>
                  destruct (dump_binary_cases f p d z) as [E|E]; rewrite E
              end.
              ** left. do 3 eexists. reflexivity.
              ** right. do 2 eexists. reflexivity.
        -- decoded_case C P Hd. right. left. do 2 eexists. reflexivity.
      * decoded_case C P Hd. right. left. do 2 eexists. reflexivity.
  - left. cbn [frame_num log]. split; [reflexivity|]. eexists.
    split; [reflexivity|]. left. reflexivity.
Qed.

Lemma decode_loop_enough_fuel (n : nat) :
  file_size + 8191 <= SIZE_MAX ->
  forall s : run_state decoder_t,
    0 <= pos s -> file_size - pos s <= Z.of_nat n ->
    loop (S n) s <> OutOfFuel /\
    forall fuel, (n < fuel)%nat -> loop fuel s = loop (S n) s.
Proof.
  intros Hmax. induction n as [|n IH]; intros s Hpos Hn.
  - cbn [decode_loop]. destruct (body s) as [s'|s'|before] eqn:B.
    + split; [discriminate|]. intros [|f] Hf; [lia|].
      cbn [decode_loop]. rewrite B. reflexivity.
    + exfalso. destruct (loop_body_again s s' Hmax Hpos B)
        as (Hle & [(w & _ & _ & E & Hfit)
                  |(hdr & tail & _ & _ & H7 & E & Hfit)]);
        lia.
    + split; [discriminate|]. intros [|f] Hf; [lia|].
      cbn [decode_loop]. rewrite B. reflexivity.
  - change (loop (S (S n)) s) with
      (match body s with
       | Leave s' => Finished s'
       | Again s' => loop (S n) s'
       | DivideByZero before => Crashed before
       end).
    destruct (body s) as [s'|s'|before] eqn:B.
    + split; [discriminate|]. intros [|f] Hf; [lia|].
      cbn [decode_loop]. rewrite B. reflexivity.
    + assert (Hs' : 0 <= pos s' /\ file_size - pos s' <= Z.of_nat n).
      { destruct (loop_body_again s s' Hmax Hpos B)
          as (Hle & [(w & _ & _ & E & Hfit)
                  |(hdr & tail & _ & _ & H7 & E & Hfit)]);
          lia. }
      destruct (IH s') as [Hne Hfuel]; try tauto.
      split; [exact Hne|]. intros [|f] Hf; [lia|].
      cbn [decode_loop]. rewrite B. apply Hfuel. lia.
    + split; [discriminate|]. intros [|f] Hf; [lia|].
      cbn [decode_loop]. rewrite B. reflexivity.
Qed.

(** C6. The frame loop terminates: from any state some amount of fuel
    lets it run to its end (the loop is left, or the process dies on a
    division by a channel count of 0), and more fuel changes nothing.
    Every trip that goes round again moves the cursor forward: the
    scanner lands on [sync >= pos], and the new cursor is [sync + 1] when
    the header or its frame length is rejected (a warning is logged), and
    [sync + frame_length] with [frame_length >= 7] when the frame is
    handed to the decoder, whatever the decoder answers.  The file is one
    whose size leaves room for a frame length below [SIZE_MAX]. *)
Theorem decode_loop_terminates (s : run_state decoder_t) :
  file_size + 8191 <= SIZE_MAX ->
  0 <= pos s ->
  (exists fuel,
     loop fuel s <> OutOfFuel /\
     forall fuel', (fuel <= fuel')%nat -> loop fuel' s = loop fuel s) /\
  (forall s',
     body s = Again s' ->
     let sync := pos s + find_adts_sync (slice file_data (pos s)) in
     pos s <= sync /\
     ((exists w,
         (w = warn_invalid_header (frame_num s) \/
          w = warn_invalid_frame_length (frame_num s)) /\
         log s' = log s ++ [Stderr w] /\
         pos s' = sync + 1 /\ pos s' <= file_size)
      \/
      (exists hdr tail,
         parse_adts_header (slice file_data sync) = Some hdr /\
         log s' = log s ++ dump_adts_header (fopen (log s)) output_dir
                             (frame_num s) hdr
                           :: CallDecode :: tail /\
         7 <= frame_length hdr /\
         pos s' = sync + frame_length hdr /\ pos s' <= file_size))).
Proof.
  intros Hmax Hpos. split.
  - exists (S (Z.to_nat (file_size - pos s))).
    destruct (decode_loop_enough_fuel (Z.to_nat (file_size - pos s)) Hmax s)
      as [Hne Hfuel]; try lia.
    split; [exact Hne|]. intros fuel' Hf. apply Hfuel. lia.
  - intros s' B. exact (loop_body_again s s' Hmax Hpos B).
Qed.

(** Invariants of the loop: what every trip preserves holds when the
    loop is left, and what holds before a crash holds of its log. *)
Lemma decode_loop_invariant (I : run_state decoder_t -> Prop)
    (Pc : list event -> Prop) :
  (forall s s', I s -> body s = Again s' -> I s') ->
  (forall s before, I s -> body s = DivideByZero before -> Pc before) ->
  forall fuel s,
    I s ->
    match loop fuel s with
    | Finished s' => I s'
    | Crashed before => Pc before
    | OutOfFuel => True
    end.
Proof.
  intros Hstep Hcrash. induction fuel as [|fuel IH]; intros s Hs.
  - exact Logic.I.
  - cbn [decode_loop]. destruct (body s) as [s'|s'|before] eqn:B.
    + apply loop_body_leave in B. subst s'. exact Hs.
    + apply IH. exact (Hstep s s' Hs B).
    + exact (Hcrash s before Hs B).
Qed.


Lemma loop_body_adts_writes_parsed (s : run_state decoder_t) :
  adts_writes_parsed (log s) ->
  match body s with
  | Leave s' | Again s' => adts_writes_parsed (log s')
  | DivideByZero before => adts_writes_parsed before
  end.
Proof.
  intros Hs. pose proof (loop_body_effects s) as E.
  destruct (body s) as [s'|s'|before].
  - subst s'. exact Hs.
  - destruct E as [(_ & w & El & _)
                  |(_ & _ & data & hdr & hd & tail & P & Hd & El & Ht)];
      rewrite El; intros dir n content Hin; apply in_app_or in Hin;
      destruct Hin as [Hin|Hin]; try (apply (Hs dir n content Hin)).
    + destruct Hin as [Hin|[]]. discriminate Hin.
    + destruct Hin as [Hin|[Hin|Hin]].
      * destruct Hd as [-> | ->]; [|discriminate Hin].
        injection Hin as _ _ <-. exists data, hdr.
        split; [exact P|reflexivity].
      * discriminate Hin.
      * destruct Ht as [(e & ->)|[(n0 & c & ->)|[(content0 & n0 & c & ->)
                                                |(n0 & c & ->)]]];
          repeat (destruct Hin as [Hin|Hin]; try discriminate Hin);
          destruct Hin.
  - destruct E as (data & hdr & hd & P & Hd & ->).
    intros dir n content Hin. apply in_app_or in Hin.
    destruct Hin as [Hin|[Hin|[Hin|[]]]].
    + apply (Hs dir n content Hin).
    + destruct Hd as [-> | ->]; [|discriminate Hin].
      injection Hin as _ _ <-. exists data, hdr.
      split; [exact P|reflexivity].
    + discriminate Hin.
Qed.

Lemma loop_body_again_adts (s s' : run_state decoder_t) :
  adts_writes_parsed (log s) -> body s = Again s' ->
  adts_writes_parsed (log s').
Proof.
  intros Hs B. pose proof (loop_body_adts_writes_parsed s Hs) as E.
  rewrite B in E. exact E.
Qed.

Lemma loop_body_crash_adts (s : run_state decoder_t) (before : list event) :
  adts_writes_parsed (log s) -> body s = DivideByZero before ->
  adts_writes_parsed before.
Proof.
  intros Hs B. pose proof (loop_body_adts_writes_parsed s Hs) as E.
  rewrite B in E. exact E.
Qed.


(** C10. When a frame decodes without error and with a positive sample
    count, the per-channel count is the truncated quotient
    [sample_count / channel_count]: [total_samples] grows by it, and the
    pcm artifact is the first [sample_count / channel_count *
    channel_count * 2] bytes of the decoder's buffer.  The
    [sample_count mod channel_count] samples that remain, 2 bytes each,
    are not written.  [content] is what [dump_pcm] hands to the file; it
    reaches the disk whenever the file system lets the file be created,
    and [total_samples] grows by the quotient in either case. *)
Theorem per_channel_count_truncated (s : run_state decoder_t)
    (hdr : adts_header_t) (decoder1 : decoder_t) (frame_info : decode_result)
    (samples : list byte) :
  let next_sync := find_adts_sync (slice file_data (pos s)) in
  let sync := to_size_t (pos s + next_sync) in
  let sample_count := fi_samples frame_info in
  let channel_count := byte_val (fi_channels frame_info) in
  let header_dump :=
    dump_adts_header (fopen (log s)) output_dir (frame_num s) hdr in
  let pcm_path := frame_pcm_bin output_dir (frame_num s) in
  pos s < file_size -> frame_num s < max_frames -> 0 <= next_sync ->
  parse_adts_header (slice file_data sync) = Some hdr ->
  7 <= frame_length hdr ->
  to_size_t (sync + frame_length hdr) <= file_size ->
  NeAACDecDecode (decoder s) (slice file_data sync)
  = (decoder1, frame_info) ->
  fi_error frame_info = x00 ->
  sample_buffer frame_info = Some samples ->
  0 < sample_count ->
  0 < channel_count ->
  Z.of_nat (length samples) = 2 * sample_count ->
  2 * sample_count <= SIZE_MAX ->
  0 <= total_samples s -> total_samples s + sample_count <= SIZE_MAX ->
  exists s' content,
    body s = Again s' /\
    total_samples s' = total_samples s + sample_count / channel_count /\
    log s' = log s ++ [header_dump;
                       CallDecode;
                       if fopen (log s ++ [header_dump; CallDecode]) pcm_path
                       then WriteBinary pcm_path content
                       else Stderr (err_cannot_create pcm_path);
                       Stdout (msg_frame (frame_num s) sample_count
                                 channel_count)] /\
    content
    = firstn (Z.to_nat (sample_count / channel_count * channel_count * 2))
        samples /\
    Z.of_nat (length content)
    = sample_count / channel_count * channel_count * 2 /\
    Z.of_nat (length samples) - Z.of_nat (length content)
    = 2 * (sample_count mod channel_count).
Proof.
  intros next_sync sync sample_count channel_count header_dump pcm_path
    Hpos Hfn Hsync P H7 Hfit D Herr Hbuf Hn Hc Hlen Hmax Ht Htmax.
  assert (Hq : 0 <= sample_count / channel_count * channel_count
               <= sample_count).
  { pose proof (Z.mul_div_le sample_count channel_count Hc).
    pose proof (Z.div_pos sample_count channel_count). nia. }
  assert (Hq0 : 0 <= sample_count / channel_count <= sample_count).
  { split; [apply Z.div_pos; lia|]. apply Z.div_le_upper_bound; nia. }
  eexists. eexists. split.
  - unfold loop_body.
    destruct (Z.ltb_spec (pos s) file_size); [|lia].
    destruct (Z.ltb_spec (frame_num s) max_frames); [|lia].
    cbn [andb]. fold next_sync.
    destruct (Z.ltb_spec next_sync 0); [lia|].
    cbv zeta. fold sync. rewrite P.
    destruct (Z.ltb_spec (frame_length hdr) ADTS_HEADER_SIZE);
      [unfold ADTS_HEADER_SIZE in *; lia|].
    destruct (Z.gtb_spec (to_size_t (sync + frame_length hdr)) file_size);
      [lia|].
    cbn [orb]. rewrite D, Herr, Hbuf.
    cbn [negb byte_val Byte.to_N Z.of_N Z.eqb].
    fold sample_count. fold channel_count.
    destruct (Z.gtb_spec sample_count 0); [|lia].
    destruct (Z.eqb_spec channel_count 0); [lia|].
    reflexivity.
  - cbn [total_samples log].
    split; [apply Z.mod_small; unfold SIZE_MAX in *; lia|].
    rewrite <- app_assoc. cbn [app]. split; [reflexivity|].
    assert (E : to_size_t (to_size_t (sample_count / channel_count
                                       * channel_count)
                           * sample_size FAAD_FMT_16BIT)
                = sample_count / channel_count * channel_count * 2).
    { cbn [sample_size]. rewrite (to_size_t_small (_ * channel_count)) by lia.
      apply to_size_t_small. lia. }
    rewrite E.
    split; [reflexivity|].
    rewrite length_firstn.
    pose proof (Z.div_mod sample_count channel_count) as Hdm.
    split; lia.
Qed.

End DriverProperties.

Section MainProperties.

Variable decoder_t : Type.
Variable NeAACDecOpen : option decoder_t.
Variable NeAACDecSetConfiguration : decoder_t -> faad_fmt -> Z -> decoder_t.
Variable NeAACDecInit : decoder_t -> list byte -> decoder_t * (Z * (Z * byte)).
Variable NeAACDecDecode : decoder_t -> list byte -> decoder_t * decode_result.
Variable atoi : String.string -> Z.
Variable read_file : String.string -> read_result.
Variable fopen : list event -> path -> bool.

Local Abbreviation run :=
  (main NeAACDecOpen NeAACDecSetConfiguration NeAACDecInit NeAACDecDecode
     atoi read_file fopen).


(** The loop of a run that gets as far as the loop, and what is logged
    before and after it. *)
Lemma main_effects (fuel : nat) (argv : list String.string) :
  (exists code l,
     run fuel argv = Finished (code, l) /\ code = 1 /\
     count is_decode_call l = 0 /\ adts_writes_parsed l /\
     forall e, In e l -> is_adts_dump e = false)
  \/
  (exists file_data output_dir max_frames s0 sample_rate channels,
     max_frames <= INT32_MAX /\
     frames_counted s0 /\ adts_writes_parsed (log s0) /\
     match decode_loop NeAACDecDecode fopen file_data output_dir max_frames
             fuel s0 with
     | Finished s =>
         run fuel argv
         = Finished (0, log s ++
                        write_info_json (fopen (log s)) output_dir
                          sample_rate channels (frame_num s)
                          (total_samples s) ++
                        [Stdout (msg_decoded (frame_num s)
                                   (total_samples s));
                         CallClose])
     | Crashed before => run fuel argv = Crashed before
     | OutOfFuel => run fuel argv = OutOfFuel
     end).
Proof.
  assert (Fatal : forall m : message,
    is_adts_dump (Stderr m) = false ->
    exists code l,
      Finished (A := Z * list event) (1, [Stderr m]) = Finished (code, l) /\
      code = 1 /\ count is_decode_call l = 0 /\ adts_writes_parsed l /\
      forall e, In e l -> is_adts_dump e = false).
  { intros m Hm. exists 1, [Stderr m]. repeat split.
    - intros dir n content [Hin|[]]. discriminate Hin.
    - intros e [<-|[]]. exact Hm. }
  unfold main.
  destruct (Z.of_nat (length argv) <? 3); [left; apply Fatal; reflexivity|].
  destruct (read_file _) as [| | |file_data];
    try (left; apply Fatal; reflexivity).
  destruct (find_adts_sync file_data <? 0);
    [left; apply Fatal; reflexivity|].
  set (log0 := (if find_adts_sync file_data >? 0
                then [Stderr (warn_skipped (find_adts_sync file_data))]
                else []) ++ [CallOpen]).
  assert (H0 : forall tail,
    (forall e, In e tail -> is_adts_dump e = false) ->
    count is_decode_call tail = 0 ->
    count is_decode_error tail + count is_frame_report tail = 0 ->
    (forall e, In e (log0 ++ tail) -> is_adts_dump e = false) /\
    count is_decode_call (log0 ++ tail) = 0 /\
    count is_decode_error (log0 ++ tail)
    + count is_frame_report (log0 ++ tail) = 0).
  { intros tail Ha Hd Hr. split.
    - intros e Hin. apply in_app_or in Hin. destruct Hin as [Hin|Hin];
        [|apply Ha; exact Hin].
      subst log0. destruct (find_adts_sync file_data >? 0);
        repeat (destruct Hin as [<-|Hin]; [reflexivity|]); destruct Hin.
    - rewrite !count_app, Hd. subst log0.
      destruct (find_adts_sync file_data >? 0); cbn; cbn in Hr; lia. }
  assert (Hnone : forall l : list event,
    (forall e, In e l -> is_adts_dump e = false) -> adts_writes_parsed l).
  { intros l Hl dir n content Hin. apply Hl in Hin. discriminate Hin. }
  destruct NeAACDecOpen as [decoder0|].
  - destruct (NeAACDecInit _ _)
      as [decoder2 [bytes_consumed [sample_rate channels]]].
    destruct (bytes_consumed <? 0).
    + left. do 2 eexists. split; [reflexivity|]. split; [reflexivity|].
      rewrite <- !app_assoc. cbn [app].
      destruct (H0 [CallSetConfiguration; CallInit; Stderr err_init_failed;
                    CallClose]) as (Ha & Hd & _); try reflexivity.
      { intros e Hin.
        repeat (destruct Hin as [<-|Hin]; [reflexivity|]); destruct Hin. }
      split; [exact Hd|]. split; [apply Hnone|]; exact Ha.
    + right.
      exists file_data, (nth 2 argv String.EmptyString),
        (if Z.of_nat (length argv) >? 3
         then to_int (atoi (nth 3 argv String.EmptyString))
         else INT32_MAX).
      exists (mk_run_state (find_adts_sync file_data) 0 0 decoder2
                ((log0 ++ [CallSetConfiguration; CallInit])
                 ++ [Stdout (msg_initialized sample_rate
                               (byte_val channels));
                     Stdout msg_output_directory])).
      exists sample_rate, (byte_val channels).
      split.
      { destruct (Z.of_nat (length argv) >? 3); [|unfold INT32_MAX; lia].
        apply to_int_range. }
      split; [|split];
        [| |destruct (decode_loop _ _ _ _ _ _ _); reflexivity].
      * unfold frames_counted. cbn [frame_num log].
        rewrite <- !app_assoc. cbn [app].
        destruct (H0 [CallSetConfiguration; CallInit;
                      Stdout (msg_initialized sample_rate
                                (byte_val channels));
                      Stdout msg_output_directory])
          as (Ha & Hd & Hr); try reflexivity.
        { intros e Hin.
          repeat (destruct Hin as [<-|Hin]; [reflexivity|]); destruct Hin. }
        rewrite Hd, Hr. repeat split; try lia.
        unfold count.
        assert (F : forall l : list event,
          (forall e, In e l -> is_adts_dump e = false) ->
          filter is_adts_dump l = []).
        { induction l as [|e l IH]; intros Hl; [reflexivity|].
          cbn [filter]. rewrite (Hl e) by (left; reflexivity).
          apply IH. intros e' He'. apply Hl. right. exact He'. }
        rewrite F by exact Ha. reflexivity.
      * cbn [log]. apply Hnone. intros e Hin.
        rewrite <- !app_assoc in Hin. cbn [app] in Hin.
        destruct (H0 [CallSetConfiguration; CallInit;
                      Stdout (msg_initialized sample_rate
                                (byte_val channels));
                      Stdout msg_output_directory])
          as (Ha & _ & _); try reflexivity.
        { intros e' Hin'.
          repeat (destruct Hin' as [<-|Hin']; [reflexivity|]);
            destruct Hin'. }
        apply Ha. exact Hin.
  - left. do 2 eexists. split; [reflexivity|]. split; [reflexivity|].
    destruct (H0 [Stderr err_cannot_create_decoder]) as (Ha & Hd & _);
      try reflexivity.
    { intros e [<-|[]]. reflexivity. }
    split; [exact Hd|]. split; [apply Hnone|]; exact Ha.
Qed.


(** C9. Every [frame_NNNN_adts.bin] written by any run, finished or
    crashed, holds the 16 bytes of a record that [parse_adts_header]
    filled in; its syncword is the constant 0xFFF and the file starts
    with the two bytes 0x0F 0xFF. *)
Theorem adts_artifact_sync_prefix (fuel : nat) (argv : list String.string)
    (l : list event) (dir : String.string) (n : Z) (content : list byte) :
  effects (run fuel argv) = Some l ->
  In (WriteBinary (frame_adts_bin dir n) content) l ->
  exists data hdr,
    parse_adts_header data = Some hdr /\
    syncword hdr = 0xFFF /\
    content = adts_header_buf hdr /\
    firstn 2 content = [x0f; xff].
Proof.
  intros Hrun Hin.
  assert (Hl : adts_writes_parsed l).
  { destruct (main_effects fuel argv)
      as [(code & l' & E & _ & _ & Hp & _)
         |(file_data & output_dir & max_frames & s0 & sample_rate & channels
           & _ & _ & Hp & E)].
    - rewrite E in Hrun. injection Hrun as <-. exact Hp.
    - pose proof (decode_loop_invariant decoder_t NeAACDecDecode fopen
                    file_data output_dir max_frames
                    (fun s => adts_writes_parsed (log s))
                    adts_writes_parsed) as Inv.
      specialize (Inv
        (loop_body_again_adts decoder_t NeAACDecDecode fopen file_data
           output_dir max_frames)
        (loop_body_crash_adts decoder_t NeAACDecDecode fopen file_data
           output_dir max_frames)
        fuel s0 Hp).
      destruct (decode_loop _ _ _ _ _ _ _) as [s|before|];
        rewrite E in Hrun; try discriminate Hrun;
        injection Hrun as <-; [|exact Inv].
      intros dir' n' content' Hin'. apply in_app_or in Hin'.
      destruct Hin' as [Hin'|Hin']; [exact (Inv dir' n' content' Hin')|].
      apply in_app_or in Hin'. unfold write_info_json in Hin'.
      destruct (fopen _ _);
        repeat (destruct Hin' as [Hin'|Hin']; try discriminate Hin');
        destruct Hin'. }
  destruct (Hl dir n content Hin) as (data & hdr & P & ->).
  exists data, hdr. destruct (parsed_sync_prefix data hdr P) as [Hs Hp].
  repeat split; assumption.
Qed.

End MainProperties.

(** ** The stub decoder on the two-frame stream *)

(** Frame 0 at offset 0, a rejected sync candidate at offset 50 (its frame
    length is 0), frame 1 at offset 62. *)
Example stub_run :
  stub_main 100 20
  = Finished
      (0, [CallOpen; CallSetConfiguration; CallInit;
           Stdout (msg_initialized 44100 2); Stdout msg_output_directory;
           WriteBinary (frame_adts_bin String.EmptyString 0)
             (adts_header_buf hdr_plain);
           CallDecode;
           WriteBinary (frame_pcm_bin String.EmptyString 0) (repeat x01 12);
           Stdout (msg_frame 0 7 2);
           Stderr (warn_invalid_frame_length 1);
           WriteBinary (frame_adts_bin String.EmptyString 1)
             (adts_header_buf hdr_plain);
           CallDecode;
           WriteBinary (frame_pcm_bin String.EmptyString 1) (repeat x01 12);
           Stdout (msg_frame 1 7 2);
           WriteInfo (info_json String.EmptyString) 44100 2 2 6;
           Stdout (msg_decoded 2 6);
           CallClose]).
Proof. vm_compute. reflexivity. Qed.

Example stub_run_one_frame :
  option_map (count is_adts_write) (effects (stub_main 1 20)) = Some 1.
Proof. vm_compute. reflexivity. Qed.

(** The same run into an output directory that does not exist: both
    frames are decoded and counted, every file is refused, and the exit
    status is 0. *)
(** Refused header files are numbered like written ones. *)
Example stub_run_read_only_numbering :
  option_map adts_frames (effects (stub_main_on read_only 100 20))
  = Some [0; 1].
Proof. vm_compute. reflexivity. Qed.

Example stub_run_read_only :
  stub_main_on read_only 100 20
  = Finished
      (0, [CallOpen; CallSetConfiguration; CallInit;
           Stdout (msg_initialized 44100 2); Stdout msg_output_directory;
           Stderr (err_cannot_create (frame_adts_bin String.EmptyString 0));
           CallDecode;
           Stderr (err_cannot_create (frame_pcm_bin String.EmptyString 0));
           Stdout (msg_frame 0 7 2);
           Stderr (warn_invalid_frame_length 1);
           Stderr (err_cannot_create (frame_adts_bin String.EmptyString 1));
           CallDecode;
           Stderr (err_cannot_create (frame_pcm_bin String.EmptyString 1));
           Stdout (msg_frame 1 7 2);
           Stdout (msg_decoded 2 6);
           CallClose]).
Proof. vm_compute. reflexivity. Qed.

Lemma decode_loop_terminates_witness :
  Z.of_nat (length two_frames) + 8191 <= SIZE_MAX /\
  0 <= pos stub_start /\
  exists fuel,
    decode_loop stub_decode writable two_frames String.EmptyString 100 fuel
      stub_start
    <> OutOfFuel.
Proof.
  assert (H1 : Z.of_nat (length two_frames) + 8191 <= SIZE_MAX)
    by (vm_compute; discriminate).
  assert (H2 : 0 <= pos stub_start) by (cbn; lia).
  split; [exact H1|]. split; [exact H2|].
  destruct (decode_loop_terminates unit stub_decode writable two_frames
              String.EmptyString 100 stub_start H1 H2)
    as [(fuel & Hne & _) _].
  exists fuel. exact Hne.
Defined.

Lemma per_channel_count_truncated_witness :
  exists s' content,
    loop_body stub_decode writable two_frames String.EmptyString 100
      stub_start
    = Again s' /\
    total_samples s' = 0 + 7 / 2 /\
    log s' = [] ++ [dump_adts_header (writable []) String.EmptyString 0
                      hdr_plain;
                    CallDecode;
                    WriteBinary (frame_pcm_bin String.EmptyString 0) content;
                    Stdout (msg_frame 0 7 2)] /\
    content = firstn (Z.to_nat (7 / 2 * 2 * 2)) stub_samples /\
    Z.of_nat (length content) = 7 / 2 * 2 * 2 /\
    Z.of_nat (length stub_samples) - Z.of_nat (length content)
    = 2 * (7 mod 2).
Proof.
  apply (per_channel_count_truncated unit stub_decode writable two_frames
           String.EmptyString 100 stub_start hdr_plain tt stub_frame_info
           stub_samples);
    try reflexivity; vm_compute; discriminate.
Defined.




Lemma adts_artifact_sync_prefix_witness :
  effects (stub_main 100 20) = Some stub_log /\
  In (WriteBinary (frame_adts_bin String.EmptyString 1)
        (adts_header_buf hdr_plain)) stub_log /\
  exists data hdr,
    parse_adts_header data = Some hdr /\
    syncword hdr = 0xFFF /\
    adts_header_buf hdr_plain = adts_header_buf hdr /\
    firstn 2 (adts_header_buf hdr_plain) = [x0f; xff].
Proof.
  assert (Hrun : effects (stub_main 100 20) = Some stub_log)
    by (vm_compute; reflexivity).
  assert (Hin : In (WriteBinary (frame_adts_bin String.EmptyString 1)
                      (adts_header_buf hdr_plain)) stub_log)
    by (vm_compute; do 10 right; left; reflexivity).
  split; [exact Hrun|]. split; [exact Hin|].
  exact (adts_artifact_sync_prefix unit (Some tt) (fun d _ _ => d) stub_init
           stub_decode (fun _ => 100) (fun _ => Loaded two_frames) writable
           20 stub_argv stub_log String.EmptyString 1
           (adts_header_buf hdr_plain) Hrun Hin).
Defined.

(** * Further properties of the code *)

(** ** The header parser, again *)

(** X1. Every field of a parsed header fits its width in the stream: the
    syncword 12 bits, id 1, layer 2, protection_absent 1, profile 2,
    sf_index 4, private_bit 1, channel_config 3, the four flags 1 each,
    frame_length 13, buffer_fullness 11 and num_raw_blocks 2.  No store
    into the [uint8_t] and [uint16_t] members truncates. *)
Theorem parse_adts_header_fields_fit (data : list byte) (hdr : adts_header_t) :
  parse_adts_header data = Some hdr ->
  Forall2 (fun v w => 0 <= v < 2 ^ w) (header_fields hdr) adts_field_widths.
Proof.
  intros H. apply parse_adts_header_some in H.
  destruct H as (_ & _ & _ & ->).
  pose proof (byte_at_range data 1) as B1.
  pose proof (byte_at_range data 2) as B2.
  pose proof (byte_at_range data 3) as B3.
  pose proof (byte_at_range data 4) as B4.
  pose proof (byte_at_range data 5) as B5.
  pose proof (byte_at_range data 6) as B6.
  unfold adts_field_widths.
  repeat (apply Forall2_cons;
          [match goal with
           | |- context [2 ^ ?n] =>
               let v := eval vm_compute in (2 ^ n) in change (2 ^ n) with v
           end; Z.div_mod_to_equations; lia|]).
  apply Forall2_nil.
Qed.

Lemma byte_at_firstn (data : list byte) (n : nat) (i : Z) :
  0 <= i < Z.of_nat n -> byte_at (firstn n data) i = byte_at data i.
Proof.
  intros Hi. unfold byte_at. rewrite nth_firstn.
  destruct (Nat.ltb_spec (Z.to_nat i) n); [reflexivity|lia].
Qed.

(** X2. The parser looks at the first 7 bytes only: on a buffer of 7
    bytes or more it gives what it gives on the first 7, whatever
    follows. *)
Theorem parse_adts_header_reads_7_bytes (data : list byte) :
  7 <= Z.of_nat (length data) ->
  parse_adts_header data = parse_adts_header (firstn 7 data).
Proof.
  intros Hlen. unfold parse_adts_header, ADTS_HEADER_SIZE.
  rewrite length_firstn.
  replace (Z.of_nat (Nat.min 7 (length data))) with 7 by lia.
  destruct (Z.ltb_spec (Z.of_nat (length data)) 7); [lia|].
  change (7 <? 7) with false. cbv zeta.
  rewrite !(byte_at_firstn data 7) by (change (Z.of_nat 7) with 7; lia).
  reflexivity.
Qed.

Lemma byte_val_inj (a b : byte) : byte_val a = byte_val b -> a = b.
Proof.
  unfold byte_val. intros H. apply N2Z.inj in H.
  apply (f_equal Byte.of_N) in H. rewrite !Byte.of_to_N in H.
  congruence.
Qed.

(** X3. The record keeps the whole header: two accepted buffers with the
    same parsed record have the same first 7 bytes. *)
Theorem parse_adts_header_injective (data1 data2 : list byte)
    (hdr : adts_header_t) :
  parse_adts_header data1 = Some hdr ->
  parse_adts_header data2 = Some hdr ->
  firstn 7 data1 = firstn 7 data2.
Proof.
  intros H1 H2.
  apply parse_adts_header_some in H1. apply parse_adts_header_some in H2.
  destruct H1 as (L1 & A0 & A1 & E1). destruct H2 as (L2 & B0 & B1 & E2).
  rewrite E1 in E2. clear E1.
  destruct data1 as [|a0 [|a1 [|a2 [|a3 [|a4 [|a5 [|a6 r1]]]]]]];
    try (cbn [length] in L1; lia).
  destruct data2 as [|b0 [|b1 [|b2 [|b3 [|b4 [|b5 [|b6 r2]]]]]]];
    try (cbn [length] in L2; lia).
  unfold byte_at in *.
  change (Z.to_nat 0) with 0%nat in *. change (Z.to_nat 1) with 1%nat in *.
  change (Z.to_nat 2) with 2%nat in *. change (Z.to_nat 3) with 3%nat in *.
  change (Z.to_nat 4) with 4%nat in *. change (Z.to_nat 5) with 5%nat in *.
  change (Z.to_nat 6) with 6%nat in *. cbn [nth] in *.
  injection E2 as F1 F2 F3 F4 F5 F6 F7 F8 F9 F10 F11 F12 F13 F14.
  pose proof (byte_val_range a1) as Ra1. pose proof (byte_val_range a2) as Ra2.
  pose proof (byte_val_range a3) as Ra3. pose proof (byte_val_range a4) as Ra4.
  pose proof (byte_val_range a5) as Ra5. pose proof (byte_val_range a6) as Ra6.
  pose proof (byte_val_range b1) as Rb1. pose proof (byte_val_range b2) as Rb2.
  pose proof (byte_val_range b3) as Rb3. pose proof (byte_val_range b4) as Rb4.
  pose proof (byte_val_range b5) as Rb5. pose proof (byte_val_range b6) as Rb6.
  cbn [firstn].
  assert (D0 : byte_val a0 = byte_val b0) by lia.
  assert (D1 : byte_val a1 = byte_val b1)
    by (clear - A1 B1 F1 F2 F3 Ra1 Rb1; Z.div_mod_to_equations; lia).
  assert (D2 : byte_val a2 = byte_val b2)
    by (clear - F4 F5 F6 F7 Ra2 Rb2 Ra3 Rb3; Z.div_mod_to_equations; lia).
  assert (D3 : byte_val a3 = byte_val b3)
    by (clear - F7 F8 F9 F10 F11 F12 Ra3 Rb3 Ra4 Rb4 Ra5 Rb5;
        Z.div_mod_to_equations; lia).
  assert (D4 : byte_val a4 = byte_val b4)
    by (clear - F12 Ra3 Rb3 Ra4 Rb4 Ra5 Rb5; Z.div_mod_to_equations; lia).
  assert (D5 : byte_val a5 = byte_val b5)
    by (clear - F12 F13 Ra3 Rb3 Ra4 Rb4 Ra5 Rb5 Ra6 Rb6;
        Z.div_mod_to_equations; lia).
  assert (D6 : byte_val a6 = byte_val b6)
    by (clear - F13 F14 Ra5 Rb5 Ra6 Rb6; Z.div_mod_to_equations; lia).
  apply byte_val_inj in D0, D1, D2, D3, D4, D5, D6. congruence.
Qed.

(** ** The sync scanner, again *)

Lemma byte_at_app_l (data rest : list byte) (i : Z) :
  0 <= i < Z.of_nat (length data) ->
  byte_at (data ++ rest) i = byte_at data i.
Proof.
  intros Hi. unfold byte_at. rewrite app_nth1 by lia. reflexivity.
Qed.

(** X4. Scanner and parser agree.  At the offset that [find_adts_sync]
    returns the sync pattern is present, a second scan from there returns
    0, and [parse_adts_header] fails there only if fewer than 7 bytes are
    left.  The buffer is one whose offsets fit an [int]. *)
Theorem find_adts_sync_hit_parses (data : list byte) :
  Z.of_nat (length data) <= INT32_MAX ->
  0 <= find_adts_sync data ->
  let r := find_adts_sync data in
  sync_pattern (slice data r) /\
  find_adts_sync (slice data r) = 0 /\
  (parse_adts_header (slice data r) = None <->
   Z.of_nat (length data) - r < 7).
Proof.
  intros Hmax Hr r. subst r.
  destruct (find_adts_sync_spec data) as [[R _]|(k & Sk & _ & R)]; [lia|].
  assert (Hk : 0 <= k < Z.of_nat (length data) - 1)
    by (destruct Sk as (? & ? & _); lia).
  rewrite R, to_int_small by (unfold INT32_MAX in *; lia).
  assert (S0 : is_sync_index (slice data k) 0).
  { apply is_sync_index_slice; [lia|]. rewrite Z.add_0_r.
    split; [lia|exact Sk]. }
  assert (P : sync_pattern (slice data k)).
  { destruct S0 as (_ & _ & S0 & S1). split; assumption. }
  split; [exact P|]. split.
  - destruct (find_adts_sync_spec (slice data k))
      as [[_ N]|(k' & Sk' & Mk' & R')].
    + exfalso. exact (N 0 S0).
    + pose proof (Mk' 0 S0). destruct Sk' as (? & _).
      replace k' with 0 in R' by lia. rewrite R'. reflexivity.
  - rewrite parse_adts_header_none, length_slice by lia.
    split; [intros [?|C]; [assumption|contradiction]|].
    intros ?; left; assumption.
Qed.

(** X5. A hit does not depend on what follows the buffer: when
    [find_adts_sync] finds a sync pattern in [data], it finds the same
    offset in [data] followed by any more bytes. *)
Theorem find_adts_sync_app (data rest : list byte) :
  Z.of_nat (length (data ++ rest)) <= INT32_MAX ->
  0 <= find_adts_sync data ->
  find_adts_sync (data ++ rest) = find_adts_sync data.
Proof.
  intros Hmax Hr. rewrite length_app in Hmax.
  destruct (find_adts_sync_spec data) as [[R _]|(k & Sk & Mk & R)]; [lia|].
  assert (Hk : 0 <= k /\ k + 1 < Z.of_nat (length data))
    by (destruct Sk as (? & ? & _); lia).
  assert (Lift : forall i, i + 1 < Z.of_nat (length data) ->
            (is_sync_index (data ++ rest) i <-> is_sync_index data i)).
  { intros i Hi. unfold is_sync_index. rewrite length_app.
    split; intros (I0 & I1 & I2 & I3).
    - rewrite !byte_at_app_l in * by lia. repeat split; auto.
    - rewrite !byte_at_app_l by lia. repeat split; auto; lia. }
  destruct (find_adts_sync_spec (data ++ rest))
    as [[_ N]|(k' & Sk' & Mk' & R')].
  - exfalso. apply (N k). apply Lift; [lia|exact Sk].
  - assert (k' <= k) by (apply Mk'; apply Lift; [lia|exact Sk]).
    assert (k <= k') by (apply Mk; apply Lift; [lia|exact Sk']).
    rewrite R, R'. f_equal. lia.
Qed.

(** ** The frame loop, again *)

Lemma adts_frames_app (l l' : list event) :
  adts_frames (l ++ l') = adts_frames l ++ adts_frames l'.
Proof.
  induction l as [|e l IH]; [reflexivity|].
  destruct e as [m|m|[d n|d n|d] c|p a b c d| | | | |];
    try (cbn [app adts_frames]; rewrite IH; reflexivity).
  destruct m; try (cbn [app adts_frames]; rewrite IH; reflexivity).
  destruct p; cbn [app adts_frames]; rewrite IH; reflexivity.
Qed.

Lemma upto_S (n : nat) : upto (S n) = upto n ++ [Z.of_nat n].
Proof. unfold upto. rewrite seq_S, map_app. reflexivity. Qed.

Lemma pcm_after_header_app (l new : list event) :
  pcm_after_header l ->
  (forall e, In e new -> is_pcm_write e = false) ->
  pcm_after_header (l ++ new).
Proof.
  intros Hl Hnew dir n content Hin. apply in_app_or in Hin.
  destruct Hin as [Hin|Hin].
  - destruct (Hl dir n content Hin) as (before & header & after & Hd & ->).
    exists before, header, (after ++ new). split; [exact Hd|].
    rewrite <- app_assoc. reflexivity.
  - apply Hnew in Hin. discriminate Hin.
Qed.

Section LoopFacts.

Variable decoder_t : Type.
Variable NeAACDecDecode : decoder_t -> list byte -> decoder_t * decode_result.
Variable fopen : list event -> path -> bool.
Variable file_data : list byte.
Variable output_dir : String.string.
Variable max_frames : Z.

Local Abbreviation body :=
  (loop_body NeAACDecDecode fopen file_data output_dir max_frames).
Local Abbreviation loop :=
  (decode_loop NeAACDecDecode fopen file_data output_dir max_frames).
Local Abbreviation file_size := (Z.of_nat (length file_data)).

(** A loop that is left was left by its last trip. *)
Lemma decode_loop_finished (fuel : nat) :
  forall s s' : run_state decoder_t,
    loop fuel s = Finished s' -> body s' = Leave s'.
Proof.
  induction fuel as [|fuel IH]; intros s s' H; [discriminate H|].
  cbn [decode_loop] in H. destruct (body s) as [s1|s1|before] eqn:B.
  - injection H as <-. pose proof (loop_body_leave _ _ _ _ _ _ _ _ B) as E.
    subst s1. exact B.
  - exact (IH s1 s' H).
  - discriminate H.
Qed.

(** What one trip appends. *)
Lemma loop_body_appends (s : run_state decoder_t) :
  match body s with
  | Leave s' => s' = s
  | Again s' =>
      exists new, log s' = log s ++ new /\ forallb is_loop_event new = true
  | DivideByZero before =>
      exists new, before = log s ++ new /\ forallb is_loop_event new = true
  end.
Proof.
  pose proof (loop_body_effects _ NeAACDecDecode fopen file_data
                output_dir max_frames s) as E.
  destruct (body s) as [s'|s'|before].
  - exact E.
  - destruct E as [(_ & w & -> & [-> | ->])
                  |(_ & _ & data & hdr & hd & tail & _ & Hd & -> & Ht)].
    + eexists. split; reflexivity.
    + eexists. split; reflexivity.
    + destruct Hd as [-> | ->];
        destruct Ht as [(e & ->)|[(n & c & ->)|[(content & n & c & ->)
                                               |(n & c & ->)]]];
        eexists; split; reflexivity.
  - destruct E as (data & hdr & hd & _ & [-> | ->] & ->);
      eexists; split; reflexivity.
Qed.

Lemma decode_loop_appends (fuel : nat) (s : run_state decoder_t) :
  match loop fuel s with
  | Finished s' =>
      exists new, log s' = log s ++ new /\ forallb is_loop_event new = true
  | Crashed before =>
      exists new, before = log s ++ new /\ forallb is_loop_event new = true
  | OutOfFuel => True
  end.
Proof.
  apply (decode_loop_invariant _ NeAACDecDecode fopen file_data
           output_dir max_frames
           (fun s' => exists new,
              log s' = log s ++ new /\ forallb is_loop_event new = true)
           (fun before => exists new,
              before = log s ++ new /\ forallb is_loop_event new = true)).
  - intros s1 s2 (new & E1 & F1) B.
    pose proof (loop_body_appends s1) as A. rewrite B in A.
    destruct A as (new' & E2 & F2). exists (new ++ new').
    rewrite E2, E1, <- app_assoc, forallb_app, F1, F2. split; reflexivity.
  - intros s1 before (new & E1 & F1) B.
    pose proof (loop_body_appends s1) as A. rewrite B in A.
    destruct A as (new' & E2 & F2). exists (new ++ new').
    rewrite E2, E1, <- app_assoc, forallb_app, F1, F2. split; reflexivity.
  - exists []. rewrite app_nil_r. split; reflexivity.
Qed.

(** Header artifacts are numbered by [frame_num]. *)
Lemma loop_body_numbered (s : run_state decoder_t) :
  max_frames <= INT32_MAX ->
  0 <= frame_num s ->
  adts_frames (log s) = upto (Z.to_nat (frame_num s)) ->
  match body s with
  | Leave s' | Again s' =>
      0 <= frame_num s' /\
      adts_frames (log s') = upto (Z.to_nat (frame_num s'))
  | DivideByZero before =>
      adts_frames before = upto (S (Z.to_nat (frame_num s)))
  end.
Proof.
  intros Hmax H0 Hn.
  pose proof (loop_body_effects _ NeAACDecDecode fopen file_data
                output_dir max_frames s) as E.
  destruct (body s) as [s'|s'|before].
  - subst s'. split; assumption.
  - destruct E as [(En & w & -> & Hw)
                  |(Hlt & En & data & hdr & hd & tail & _ & Hd & -> & Ht)].
    + rewrite En, adts_frames_app.
      destruct Hw as [-> | ->]; cbn [adts_frames]; rewrite app_nil_r;
        split; assumption.
    + rewrite En, to_int_small by (unfold INT32_MAX in *; lia).
      split; [lia|].
      replace (Z.to_nat (frame_num s + 1)) with (S (Z.to_nat (frame_num s)))
        by lia.
      rewrite upto_S, Z2Nat.id by lia.
      rewrite adts_frames_app, Hn. f_equal.
      destruct Hd as [-> | ->];
        destruct Ht as [(e & ->)|[(n & c & ->)|[(content & n & c & ->)
                                               |(n & c & ->)]]];
        reflexivity.
  - destruct E as (data & hdr & hd & _ & Hd & ->).
    rewrite upto_S, Z2Nat.id by lia. rewrite adts_frames_app, Hn.
    destruct Hd as [-> | ->]; reflexivity.
Qed.

Lemma loop_body_pcm_after_header (s : run_state decoder_t) :
  pcm_after_header (log s) ->
  match body s with
  | Leave s' | Again s' => pcm_after_header (log s')
  | DivideByZero before => pcm_after_header before
  end.
Proof.
  intros Hs.
  pose proof (loop_body_effects _ NeAACDecDecode fopen file_data
                output_dir max_frames s) as E.
  assert (Plain : forall new,
            forallb (fun e => negb (is_pcm_write e)) new = true ->
            pcm_after_header (log s ++ new)).
  { intros new Hnew. apply pcm_after_header_app; [exact Hs|].
    intros e Hin. rewrite forallb_forall in Hnew. apply Hnew in Hin.
    destruct (is_pcm_write e); [discriminate Hin|reflexivity]. }
  destruct (body s) as [s'|s'|before].
  - subst s'. exact Hs.
  - destruct E as [(_ & w & -> & [-> | ->])
                  |(_ & _ & data & hdr & hd & tail & _ & Hd & -> & Ht)];
      try (apply Plain; reflexivity).
    destruct Ht as [(e & ->)|[(n & c & ->)|[(content & n & c & ->)
                                           |(n & c & ->)]]];
      try (destruct Hd as [-> | ->]; apply Plain; reflexivity).
    intros dir n' content' Hin. apply in_app_or in Hin.
    destruct Hin as [Hin|Hin].
    + destruct (Hs dir n' content' Hin)
        as (before & header & after & Hh & E).
      eexists before, header, (after ++ _). split; [exact Hh|].
      rewrite E, <- app_assoc. reflexivity.
    + assert (Hp : WriteBinary (frame_pcm_bin output_dir (frame_num s))
                     content
                   = WriteBinary (frame_pcm_bin dir n') content').
      { destruct Hd as [-> | ->];
          destruct Hin as [Hin|[Hin|[Hin|[Hin|[]]]]]; try discriminate Hin;
          exact Hin. }
      injection Hp as <- <- <-.
      exists (log s), hd, [Stdout (msg_frame (frame_num s) n c)].
      split; [|reflexivity].
      destruct Hd as [-> | ->]; [left; eexists; reflexivity|right; reflexivity].
  - destruct E as (data & hdr & hd & _ & [-> | ->] & ->);
      apply Plain; reflexivity.
Qed.


(** The frame counter stays below the cap. *)
Lemma loop_body_capped (s s' : run_state decoder_t) :
  max_frames <= INT32_MAX ->
  0 <= frame_num s ->
  (frame_num s = 0 \/ frame_num s <= max_frames) ->
  body s = Again s' ->
  0 <= frame_num s' /\ (frame_num s' = 0 \/ frame_num s' <= max_frames).
Proof.
  intros Hmax H0 Hc B.
  pose proof (loop_body_effects _ NeAACDecDecode fopen file_data
                output_dir max_frames s) as E.
  rewrite B in E.
  destruct E as [(-> & _)|(Hlt & -> & _)]; [split; assumption|].
  rewrite to_int_small by (unfold INT32_MAX in *; lia). lia.
Qed.

(** One trip round the loop, with the cursor. *)
Lemma loop_body_step (s s' : run_state decoder_t) :
  file_size + 8191 <= SIZE_MAX ->
  0 <= pos s ->
  body s = Again s' ->
  let sync := pos s + find_adts_sync (slice file_data (pos s)) in
  0 <= find_adts_sync (slice file_data (pos s)) /\ sync + 1 < file_size /\
  ((pos s' = sync + 1 /\ frame_num s' = frame_num s /\
    ((parse_adts_header (slice file_data sync) = None /\
      log s' = log s ++ [Stderr (warn_invalid_header (frame_num s))])
     \/
     (exists hdr,
        parse_adts_header (slice file_data sync) = Some hdr /\
        (frame_length hdr < 7 \/ file_size < sync + frame_length hdr) /\
        log s' = log s ++ [Stderr (warn_invalid_frame_length (frame_num s))])))
   \/
   (exists hdr,
      parse_adts_header (slice file_data sync) = Some hdr /\
      7 <= frame_length hdr /\ sync + frame_length hdr <= file_size /\
      pos s' = sync + frame_length hdr /\
      frame_num s < max_frames /\
      frame_num s' = to_int (frame_num s + 1))).
Proof.
  intros Hmax Hpos H sync.
  unfold loop_body in H.
  destruct ((pos s <? file_size) && (frame_num s <? max_frames)) eqn:C;
    [|discriminate H].
  apply andb_true_iff in C. destruct C as [C C']. apply Z.ltb_lt in C, C'.
  destruct (Z.ltb_spec (find_adts_sync (slice file_data (pos s))) 0)
    as [|Hfound]; [discriminate H|].
  destruct (sync_offset_in_range _ file_data s) as (E & Hle & Hlt);
    try (unfold SIZE_MAX in *; lia).
  cbv zeta in E, Hle, Hlt, H. rewrite E in H.
  fold sync in E, Hle, Hlt, H.
  split; [exact Hfound|]. split; [exact Hlt|].
  destruct (parse_adts_header (slice file_data sync)) as [hdr|] eqn:P.
  - pose proof (parse_frame_length_range _ _ P) as Hfl.
    rewrite (to_size_t_small (sync + 1)),
      (to_size_t_small (sync + frame_length hdr)) in H by lia.
    destruct (Z.ltb_spec (frame_length hdr) ADTS_HEADER_SIZE) as [H7|H7];
      unfold ADTS_HEADER_SIZE in H7; cbn [orb] in H.
    + injection H as <-. left. cbn [log pos frame_num].
      split; [reflexivity|]. split; [reflexivity|]. right. exists hdr.
      split; [reflexivity|]. split; [left; exact H7|reflexivity].
    + destruct (Z.gtb_spec (sync + frame_length hdr) file_size) as [Hbig|Hfit].
      * injection H as <-. left. cbn [log pos frame_num].
        split; [reflexivity|]. split; [reflexivity|]. right. exists hdr.
        split; [reflexivity|]. split; [right; lia|reflexivity].
      * right. exists hdr.
        destruct (NeAACDecDecode (decoder s) (slice file_data sync))
          as [decoder1 frame_info].
        repeat match type of H with
        | context [match ?x with _ => _ end] => destruct x eqn:?
        end; try discriminate H; injection H as <-; cbn [pos frame_num];
        repeat split; try reflexivity; lia.
  - rewrite (to_size_t_small (sync + 1)) in H by lia.
    injection H as <-. left. cbn [log pos frame_num].
    split; [reflexivity|]. split; [reflexivity|]. left.
    split; reflexivity.
Qed.

Lemma decode_loop_numbered (fuel : nat) (s : run_state decoder_t) :
  max_frames <= INT32_MAX ->
  0 <= frame_num s ->
  adts_frames (log s) = upto (Z.to_nat (frame_num s)) ->
  match loop fuel s with
  | Finished s' =>
      0 <= frame_num s' /\
      adts_frames (log s') = upto (Z.to_nat (frame_num s'))
  | Crashed before => exists n, adts_frames before = upto n
  | OutOfFuel => True
  end.
Proof.
  intros Hmax H0 Hn.
  apply (decode_loop_invariant _ NeAACDecDecode fopen file_data
           output_dir max_frames
           (fun x => 0 <= frame_num x /\
                     adts_frames (log x) = upto (Z.to_nat (frame_num x)))
           (fun before => exists n, adts_frames before = upto n)).
  - intros x x' [Hx0 Hx] B.
    pose proof (loop_body_numbered x Hmax Hx0 Hx) as E. rewrite B in E.
    exact E.
  - intros x before [Hx0 Hx] B.
    pose proof (loop_body_numbered x Hmax Hx0 Hx) as E. rewrite B in E.
    eexists. exact E.
  - split; assumption.
Qed.

Lemma decode_loop_pcm_after_header (fuel : nat) (s : run_state decoder_t) :
  pcm_after_header (log s) ->
  match loop fuel s with
  | Finished s' => pcm_after_header (log s')
  | Crashed before => pcm_after_header before
  | OutOfFuel => True
  end.
Proof.
  intros Hs.
  apply (decode_loop_invariant _ NeAACDecDecode fopen file_data
           output_dir max_frames (fun x => pcm_after_header (log x))
           pcm_after_header).
  - intros x x' Hx B.
    pose proof (loop_body_pcm_after_header x Hx) as E. rewrite B in E.
    exact E.
  - intros x before Hx B.
    pose proof (loop_body_pcm_after_header x Hx) as E. rewrite B in E.
    exact E.
  - exact Hs.
Qed.


Lemma decode_loop_capped (fuel : nat) (s s' : run_state decoder_t) :
  max_frames <= INT32_MAX ->
  0 <= frame_num s ->
  (frame_num s = 0 \/ frame_num s <= max_frames) ->
  loop fuel s = Finished s' ->
  0 <= frame_num s' /\ (frame_num s' = 0 \/ frame_num s' <= max_frames).
Proof.
  intros Hmax H0 Hc H.
  pose proof (decode_loop_invariant _ NeAACDecDecode fopen file_data
                output_dir max_frames
                (fun x => 0 <= frame_num x /\
                          (frame_num x = 0 \/ frame_num x <= max_frames))
                (fun _ => True)) as Inv.
  cbv beta in Inv.
  assert (Step : forall x x' : run_state decoder_t,
            0 <= frame_num x /\
            (frame_num x = 0 \/ frame_num x <= max_frames) ->
            body x = Again x' ->
            0 <= frame_num x' /\
            (frame_num x' = 0 \/ frame_num x' <= max_frames)).
  { intros x x' [Hx Hxc] B. exact (loop_body_capped x x' Hmax Hx Hxc B). }
  specialize (Inv Step (fun _ _ _ _ => Logic.I) fuel s (conj H0 Hc)).
  rewrite H in Inv. exact Inv.
Qed.

End LoopFacts.

Lemma count_none (p : event -> bool) (l : list event) :
  (forall e, In e l -> p e = false) -> count p l = 0.
Proof.
  intros H. unfold count. induction l as [|e l IH]; [reflexivity|].
  cbn [filter]. rewrite (H e) by (left; reflexivity).
  apply IH. intros e' He'. apply H. right. exact He'.
Qed.

Lemma count_loop_events (p : event -> bool) (new : list event) :
  (forall e, is_loop_event e = true -> p e = false) ->
  forallb is_loop_event new = true ->
  count p new = 0.
Proof.
  intros Hp Hnew. apply count_none. intros e Hin.
  rewrite forallb_forall in Hnew. apply Hp, Hnew, Hin.
Qed.


Lemma loop_event_not_open (e : event) :
  is_loop_event e = true -> is_open_call e = false.
Proof.
  destruct e as [[]|[]|[] ?|? ? ? ? ?| | | | |]; intros H;
    try reflexivity; discriminate H.
Qed.

Lemma loop_event_not_close (e : event) :
  is_loop_event e = true -> is_close_call e = false.
Proof.
  destruct e as [[]|[]|[] ?|? ? ? ? ?| | | | |]; intros H;
    try reflexivity; discriminate H.
Qed.

Section LoopExtras.

Variable decoder_t : Type.
Variable NeAACDecDecode : decoder_t -> list byte -> decoder_t * decode_result.
Variable fopen : list event -> path -> bool.
Variable file_data : list byte.
Variable output_dir : String.string.
Variable max_frames : Z.

Local Abbreviation body :=
  (loop_body NeAACDecDecode fopen file_data output_dir max_frames).
Local Abbreviation loop :=
  (decode_loop NeAACDecDecode fopen file_data output_dir max_frames).
Local Abbreviation file_size := (Z.of_nat (length file_data)).

(** The cursor and the frame counter along the loop: every counted frame
    took at least 7 bytes. *)
Lemma decode_loop_cursor (fuel : nat) (s s' : run_state decoder_t) :
  file_size + 8191 <= SIZE_MAX ->
  max_frames <= INT32_MAX ->
  0 <= pos s -> 0 <= frame_num s ->
  loop fuel s = Finished s' ->
  frame_num s <= frame_num s' /\
  pos s + 7 * (frame_num s' - frame_num s) <= pos s' /\
  (pos s <= file_size -> pos s' <= file_size).
Proof.
  intros Hsize Hmax Hpos Hfn H.
  pose proof (decode_loop_invariant _ NeAACDecDecode fopen file_data
                output_dir max_frames
                (fun x => 0 <= pos x /\ frame_num s <= frame_num x /\
                          pos s + 7 * (frame_num x - frame_num s) <= pos x /\
                          (pos s <= file_size -> pos x <= file_size))
                (fun _ => True)) as Inv.
  cbv beta in Inv.
  assert (Step : forall x x' : run_state decoder_t,
            0 <= pos x /\ frame_num s <= frame_num x /\
            pos s + 7 * (frame_num x - frame_num s) <= pos x /\
            (pos s <= file_size -> pos x <= file_size) ->
            body x = Again x' ->
            0 <= pos x' /\ frame_num s <= frame_num x' /\
            pos s + 7 * (frame_num x' - frame_num s) <= pos x' /\
            (pos s <= file_size -> pos x' <= file_size)).
  { intros x x' (Ix0 & Ix1 & Ix2 & Ix3) B.
    destruct (loop_body_step _ NeAACDecDecode fopen file_data output_dir
                max_frames
                x x' Hsize Ix0 B)
      as (Hf & Hlt & [(Ep & En & _)
                     |(hdr & _ & H7 & Hfit & Ep & Hcap & En)]).
    - rewrite Ep, En. lia.
    - rewrite Ep, En, to_int_small by (unfold INT32_MAX in *; lia). lia. }
  specialize (Inv Step (fun _ _ _ _ => Logic.I) fuel s ltac:(lia)).
  rewrite H in Inv. tauto.
Qed.

(** X6. The loop is only left with nothing more to do: when it ends, the
    cursor has not moved back, and either [frame_num] has reached
    [max_frames] or no sync pattern starts at or behind the cursor. *)
Theorem decode_loop_leaves_no_sync (fuel : nat) (s s' : run_state decoder_t) :
  file_size <= INT32_MAX ->
  max_frames <= INT32_MAX ->
  0 <= pos s -> 0 <= frame_num s ->
  loop fuel s = Finished s' ->
  pos s <= pos s' /\
  (max_frames <= frame_num s' \/
   forall i, pos s' <= i -> ~ is_sync_index file_data i).
Proof.
  intros Hsize Hmax Hpos Hfn H.
  assert (Hsize' : file_size + 8191 <= SIZE_MAX)
    by (unfold INT32_MAX, SIZE_MAX in *; lia).
  destruct (decode_loop_cursor fuel s s' Hsize' Hmax Hpos Hfn H)
    as (Hn & Hp & _).
  split; [lia|].
  pose proof (decode_loop_finished _ NeAACDecDecode fopen file_data
                output_dir max_frames fuel s s' H) as L.
  unfold loop_body in L. cbv zeta in L.
  destruct (Z.ltb_spec (pos s') file_size) as [Hin|Hout].
  - destruct (Z.ltb_spec (frame_num s') max_frames) as [Hcap|Hcap];
      [|left; exact Hcap].
    cbn [andb] in L. right.
    destruct (Z.ltb_spec (find_adts_sync (slice file_data (pos s'))) 0)
      as [Hneg|Hfound].
    + destruct (find_adts_sync_spec (slice file_data (pos s')))
        as [[_ N]|(k & Sk & _ & R)].
      * intros i Hi Si. apply (N (i - pos s')).
        apply is_sync_index_slice; [lia|].
        replace (pos s' + (i - pos s')) with i by lia. split; [lia|exact Si].
      * exfalso. destruct Sk as (Hk0 & Hk1 & _).
        rewrite length_slice in Hk1 by lia.
        rewrite R, to_int_small in Hneg by (unfold INT32_MAX in *; lia). lia.
    + exfalso.
      repeat match type of L with
      | context [match ?x with _ => _ end] => destruct x eqn:?
      end; discriminate L.
  - right. intros i Hi (_ & Hlt & _). lia.
Qed.

(** X7. In a file of at most [INT32_MAX] bytes the warning "invalid ADTS
    header" is logged only at the end of the file: the scanner has found
    a sync pattern at [sync], fewer than 7 bytes are left from there, and
    the cursor moves to [sync + 1]. *)
Theorem invalid_header_only_at_end (s s' : run_state decoder_t) :
  file_size <= INT32_MAX ->
  0 <= pos s ->
  body s = Again s' ->
  log s' = log s ++ [Stderr (warn_invalid_header (frame_num s))] ->
  let sync := pos s + find_adts_sync (slice file_data (pos s)) in
  is_sync_index file_data sync /\ file_size - 7 < sync /\ pos s' = sync + 1.
Proof.
  intros Hsize Hpos B Hlog sync.
  assert (Hsize' : file_size + 8191 <= SIZE_MAX)
    by (unfold INT32_MAX, SIZE_MAX in *; lia).
  destruct (loop_body_step _ NeAACDecDecode fopen file_data output_dir
                max_frames
              s s' Hsize' Hpos B)
    as (Hf & Hlt & Hcase).
  fold sync in Hlt, Hcase.
  assert (Spos : pos s < file_size) by (subst sync; lia).
  assert (Ssync : is_sync_index file_data sync).
  { destruct (find_adts_sync_spec (slice file_data (pos s)))
      as [[R _]|(k & Sk & _ & R)]; [lia|].
    apply is_sync_index_slice in Sk; [|lia]. destruct Sk as [Hk Sk].
    assert (k < file_size) by (destruct Sk as (_ & ? & _); lia).
    subst sync. rewrite R, to_int_small by (unfold INT32_MAX in *; lia).
    exact Sk. }
  split; [exact Ssync|].
  destruct Hcase as [(Ep & _ & [(P & _)|(hdr & _ & _ & El)])
                    |(hdr & _ & _ & _ & _ & Hcap & En)].
  - split; [|exact Ep].
    apply parse_adts_header_none in P.
    rewrite length_slice in P by (destruct Ssync; lia).
    destruct P as [P|P]; [lia|]. exfalso. apply P.
    assert (S0 : is_sync_index (slice file_data sync) 0).
    { apply is_sync_index_slice; [destruct Ssync; lia|].
      rewrite Z.add_0_r. split; [lia|exact Ssync]. }
    destruct S0 as (_ & _ & S0 & S1). split; assumption.
  - rewrite El in Hlog. apply app_inv_head in Hlog. discriminate Hlog.
  - exfalso.
    pose proof (loop_body_effects _ NeAACDecDecode fopen file_data
                  output_dir max_frames s) as E.
    rewrite B in E.
    destruct E as [(En' & _)
                  |(_ & _ & data & hdr' & hd & tail & _ & _ & El & _)].
    + rewrite En' in En.
      unfold to_int in En. change (2 ^ 31) with 2147483648 in En.
      change (2 ^ 32) with 4294967296 in En.
      revert En. Z.div_mod_to_equations. lia.
    + rewrite El in Hlog. apply app_inv_head in Hlog. discriminate Hlog.
Qed.

End LoopExtras.

(** ** The whole program *)

Lemma skipped_counts (skipped : list event) (p : event -> bool) :
  (skipped = [] \/ exists n, skipped = [Stderr (warn_skipped n)]) ->
  (forall n, p (Stderr (warn_skipped n)) = false) ->
  count p skipped = 0.
Proof.
  intros [-> |(n & ->)] Hp; [reflexivity|].
  unfold count. cbn [filter]. rewrite Hp. reflexivity.
Qed.

Lemma max_frames_of_le (atoi : String.string -> Z) (argv : list String.string) :
  max_frames_of atoi argv <= INT32_MAX.
Proof.
  unfold max_frames_of. destruct (Z.of_nat (length argv) >? 3); [|lia].
  apply to_int_range.
Qed.

Lemma adts_frames_not_loop_event (e : event) :
  is_loop_event e = false ->
  adts_frames [e] = upto (length (adts_frames [e])).
Proof.
  destruct e as [m|m|p c|p a b c d| | | | |]; try reflexivity.
  - destruct m; try reflexivity. destruct p; try reflexivity; discriminate.
  - destruct p; try reflexivity; discriminate.
Qed.

Lemma count_write_info_json (p : event -> bool) (fopen : path -> bool)
    (dir : String.string) (a b c d : Z) :
  (forall x a' b' c' d', p (WriteInfo x a' b' c' d') = false) ->
  count p (write_info_json fopen dir a b c d) = 0.
Proof.
  intros Hp. unfold write_info_json, count.
  destruct (fopen _); [|reflexivity]. cbn [filter]. rewrite Hp. reflexivity.
Qed.

(** In [start; start + 1; ...] what comes later is larger. *)
Lemma seq_increasing (n : nat) :
  forall (start : nat) (a b c : list Z) (x y : Z),
    map Z.of_nat (seq start n) = a ++ x :: b ++ y :: c -> x < y.
Proof.
  induction n as [|n IH]; intros start a b c x y H.
  - destruct a; discriminate H.
  - cbn [seq map] in H. destruct a as [|a0 a]; cbn [app] in H.
    + injection H as <- H.
      assert (Hin : In y (map Z.of_nat (seq (S start) n))).
      { rewrite H. apply in_or_app. right. left. reflexivity. }
      apply in_map_iff in Hin. destruct Hin as (k & <- & Hk).
      apply in_seq in Hk. lia.
    + injection H as _ H. exact (IH _ _ _ _ _ _ H).
Qed.

Section MainExtras.

Variable decoder_t : Type.
Variable NeAACDecOpen : option decoder_t.
Variable NeAACDecSetConfiguration : decoder_t -> faad_fmt -> Z -> decoder_t.
Variable NeAACDecInit : decoder_t -> list byte -> decoder_t * (Z * (Z * byte)).
Variable NeAACDecDecode : decoder_t -> list byte -> decoder_t * decode_result.
Variable atoi : String.string -> Z.
Variable read_file : String.string -> read_result.
Variable fopen : list event -> path -> bool.

Local Abbreviation run :=
  (main NeAACDecOpen NeAACDecSetConfiguration NeAACDecInit NeAACDecDecode
     atoi read_file fopen).

(** The ways through [main]: a fatal exit before the decoder is opened, a
    decoder that cannot be opened or initialised, and the frame loop. *)
Lemma main_shape (argv : list String.string) :
  (exists m,
     (forall fuel, run fuel argv = Finished (1, [Stderr m])) /\
     is_loop_event (Stderr m) = false)
  \/
  (exists skipped tail,
     (skipped = [] \/ exists n, skipped = [Stderr (warn_skipped n)]) /\
     ((NeAACDecOpen = None /\ tail = [Stderr err_cannot_create_decoder]) \/
      (NeAACDecOpen <> None /\
       tail = [CallSetConfiguration; CallInit; Stderr err_init_failed;
               CallClose])) /\
     forall fuel, run fuel argv = Finished (1, skipped ++ CallOpen :: tail))
  \/
  (exists file_data skipped decoder2 sample_rate channels,
     read_file (nth 1 argv String.EmptyString) = Loaded file_data /\
     0 <= find_adts_sync file_data /\
     NeAACDecOpen <> None /\
     (skipped = [] \/ exists n, skipped = [Stderr (warn_skipped n)]) /\
     forall fuel,
       run fuel argv
       = match decode_loop NeAACDecDecode fopen file_data
                 (nth 2 argv String.EmptyString) (max_frames_of atoi argv)
                 fuel
                 (mk_run_state (find_adts_sync file_data) 0 0 decoder2
                    (prologue skipped sample_rate channels)) with
         | Finished s =>
             Finished (0, log s ++
                          write_info_json (fopen (log s))
                            (nth 2 argv String.EmptyString) sample_rate
                            channels (frame_num s) (total_samples s) ++
                          [Stdout (msg_decoded (frame_num s)
                                     (total_samples s));
                           CallClose])
         | Crashed before => Crashed before
         | OutOfFuel => OutOfFuel
         end).
Proof.
  unfold main.
  destruct (Z.of_nat (length argv) <? 3);
    [left; eexists; split; [intros; reflexivity|reflexivity]|].
  destruct (read_file _) as [| | |file_data] eqn:R;
    try (left; eexists; split; [intros; reflexivity|reflexivity]).
  destruct (Z.ltb_spec (find_adts_sync file_data) 0) as [|Hsync];
    [left; eexists; split; [intros; reflexivity|reflexivity]|].
  right.
  set (skipped := if find_adts_sync file_data >? 0
                  then [Stderr (warn_skipped (find_adts_sync file_data))]
                  else []).
  assert (Hsk : skipped = [] \/ exists n, skipped = [Stderr (warn_skipped n)]).
  { subst skipped. destruct (find_adts_sync file_data >? 0);
      [right; eexists; reflexivity|left; reflexivity]. }
  destruct NeAACDecOpen as [decoder0|] eqn:O.
  - destruct (NeAACDecInit _ _)
      as [decoder2 [bytes_consumed [sample_rate channels]]].
    destruct (bytes_consumed <? 0).
    + left. exists skipped. eexists. split; [exact Hsk|].
      split; [right; split; [discriminate|reflexivity]|].
      intros fuel. rewrite <- !app_assoc. reflexivity.
    + right. exists file_data, skipped, decoder2, sample_rate,
        (byte_val channels).
      split; [reflexivity|]. split; [exact Hsync|]. split; [discriminate|].
      split; [exact Hsk|]. intros fuel.
      unfold prologue, max_frames_of.
      rewrite <- !app_assoc. reflexivity.
  - left. exists skipped. eexists. split; [exact Hsk|].
    split; [left; split; reflexivity|].
    intros fuel. rewrite <- !app_assoc. reflexivity.
Qed.

(** A run that exits with status 0 went through the frame loop. *)
Lemma main_finished_ok (fuel : nat) (argv : list String.string)
    (l : list event) :
  run fuel argv = Finished (0, l) ->
  exists file_data skipped decoder2 sample_rate channels s,
    read_file (nth 1 argv String.EmptyString) = Loaded file_data /\
    0 <= find_adts_sync file_data /\
    (skipped = [] \/ exists n, skipped = [Stderr (warn_skipped n)]) /\
    decode_loop NeAACDecDecode fopen file_data
      (nth 2 argv String.EmptyString) (max_frames_of atoi argv) fuel
      (mk_run_state (find_adts_sync file_data) 0 0 decoder2
         (prologue skipped sample_rate channels))
    = Finished s /\
    l = log s ++
        write_info_json (fopen (log s)) (nth 2 argv String.EmptyString)
          sample_rate channels (frame_num s) (total_samples s) ++
        [Stdout (msg_decoded (frame_num s) (total_samples s));
         CallClose].
Proof.
  intros H.
  destruct (main_shape argv)
    as [(m & E & Hm)|[(skipped & tail & _ & _ & E)
                |(file_data & skipped & decoder2 & sample_rate & channels
                  & R & Hsync & _ & Hsk & E)]].
  - rewrite E in H. discriminate H.
  - rewrite E in H. discriminate H.
  - rewrite E in H.
    destruct (decode_loop _ _ _ _ _ _ _) as [s|before|] eqn:L;
      try discriminate H.
    injection H as <-.
    exists file_data, skipped, decoder2, sample_rate, channels, s.
    repeat split; assumption.
Qed.


(** X9. The decoder handle: [NeAACDecOpen] is called at most once, a run
    that returns closes the decoder exactly when it was opened (one
    [NeAACDecClose] for a handle, none for [NULL]), and the close is the
    last thing the run does. *)
Theorem main_closes_decoder (fuel : nat) (argv : list String.string)
    (code : Z) (l : list event) :
  run fuel argv = Finished (code, l) ->
  count is_open_call l <= 1 /\
  count is_close_call l
  = match NeAACDecOpen with
    | Some _ => count is_open_call l
    | None => 0
    end /\
  (count is_close_call l = 1 -> exists l0, l = l0 ++ [CallClose]).
Proof.
  intros H.
  destruct (main_shape argv)
    as [(m & E & Hm)|[(skipped & tail & Hsk & Ht & E)
                |(file_data & skipped & decoder2 & sample_rate & channels
                  & R & Hsync & Hopen & Hsk & E)]].
  - rewrite E in H. injection H as <- <-.
    split; [cbn; lia|]. split; [destruct NeAACDecOpen; reflexivity|].
    intros C. discriminate C.
  - rewrite E in H. injection H as <- <-.
    rewrite !count_app.
    rewrite !(skipped_counts skipped) by (assumption || reflexivity).
    destruct Ht as [[O ->]|[O ->]].
    + rewrite O. split; [cbn; lia|]. split; [reflexivity|].
      intros C. discriminate C.
    + destruct NeAACDecOpen; [|contradiction].
      split; [cbn; lia|]. split; [reflexivity|]. intros _.
      exists (skipped ++ [CallOpen; CallSetConfiguration; CallInit;
                          Stderr err_init_failed]).
      rewrite <- app_assoc. reflexivity.
  - rewrite E in H.
    pose proof (decode_loop_appends _ NeAACDecDecode fopen file_data
                  (nth 2 argv String.EmptyString) (max_frames_of atoi argv)
                  fuel
                  (mk_run_state (find_adts_sync file_data) 0 0 decoder2
                     (prologue skipped sample_rate channels))) as A.
    destruct (decode_loop _ _ _ _ _ _ _) as [s|before|];
      try discriminate H.
    injection H as <- <-.
    destruct A as (new & -> & Hnew). cbn [log].
    destruct NeAACDecOpen; [|contradiction].
    unfold prologue. rewrite !count_app.
    rewrite !(skipped_counts skipped) by (assumption || reflexivity).
    rewrite (count_loop_events is_open_call new loop_event_not_open Hnew).
    rewrite (count_loop_events is_close_call new loop_event_not_close Hnew).
    rewrite !count_write_info_json by reflexivity.
    split; [cbn; lia|]. split; [reflexivity|]. intros _.
    match goal with
    | |- exists l0, ?L ++ ?W ++ [?b; ?c] = l0 ++ [?c] =>
        exists (L ++ W ++ [b]);
        rewrite <- (app_assoc L (W ++ [b]) [c]), <- (app_assoc W [b] [c]);
        reflexivity
    end.
Qed.

Lemma adts_frames_prologue (skipped : list event) (sample_rate channels : Z) :
  (skipped = [] \/ exists n, skipped = [Stderr (warn_skipped n)]) ->
  adts_frames (prologue skipped sample_rate channels) = [].
Proof. intros [-> |(n & ->)]; reflexivity. Qed.

Lemma length_upto (n : nat) : length (upto n) = n.
Proof. unfold upto. rewrite length_map, length_seq. reflexivity. Qed.

(** X10. The calls of [dump_adts_header] are numbered 0, 1, 2, ... in
    program order, in finished and in crashed runs; each call shows in
    the log as the header artifact or as the message that the file
    cannot be created.  A rejected sync candidate uses up no number, and
    of two header artifacts the later one has the larger frame number. *)
Theorem adts_frames_consecutive (fuel : nat) (argv : list String.string)
    (l : list event) :
  effects (run fuel argv) = Some l ->
  adts_frames l = upto (length (adts_frames l)) /\
  forall l1 l2 l3 dir1 n1 content1 dir2 n2 content2,
    l = l1 ++ WriteBinary (frame_adts_bin dir1 n1) content1
           :: l2 ++ WriteBinary (frame_adts_bin dir2 n2) content2 :: l3 ->
    n1 < n2.
Proof.
  intros H.
  assert (N : adts_frames l = upto (length (adts_frames l))).
  { destruct (main_shape argv)
      as [(m & E & Hm)|[(skipped & tail & Hsk & Ht & E)
                  |(file_data & skipped & decoder2 & sample_rate & channels
                    & R & Hsync & _ & Hsk & E)]].
    - rewrite E in H. injection H as <-.
      apply adts_frames_not_loop_event. exact Hm.
    - rewrite E in H. injection H as <-. rewrite adts_frames_app.
      destruct Hsk as [-> |(n & ->)]; destruct Ht as [[_ ->]|[_ ->]];
        reflexivity.
    - rewrite E in H.
      pose proof (decode_loop_numbered _ NeAACDecDecode fopen file_data
                    (nth 2 argv String.EmptyString) (max_frames_of atoi argv)
                    fuel
                    (mk_run_state (find_adts_sync file_data) 0 0 decoder2
                       (prologue skipped sample_rate channels))
                    (max_frames_of_le atoi argv)) as N.
      cbn [frame_num log] in N.
      specialize (N ltac:(lia) (adts_frames_prologue _ _ _ Hsk)).
      destruct (decode_loop _ _ _ _ _ _ _) as [s|before|];
        try discriminate H; injection H as <-.
      + destruct N as [_ N]. rewrite !adts_frames_app, N.
        unfold write_info_json. destruct (fopen _ _); cbn [adts_frames];
          rewrite !app_nil_r, length_upto; reflexivity.
      + destruct N as (n & ->). rewrite length_upto. reflexivity. }
  split; [exact N|].
  intros l1 l2 l3 dir1 n1 content1 dir2 n2 content2 El.
  rewrite El in N. rewrite adts_frames_app in N. cbn [adts_frames] in N.
  rewrite adts_frames_app in N. cbn [adts_frames] in N.
  unfold upto in N. symmetry in N.
  exact (seq_increasing _ _ _ _ _ _ _ N).
Qed.

Lemma pcm_after_header_none (l : list event) :
  (forall e, In e l -> is_pcm_write e = false) -> pcm_after_header l.
Proof. intros Hl dir n content Hin. apply Hl in Hin. discriminate Hin. Qed.

(** X11. Every [frame_NNNN_pcm.bin] is written right after the decode
    call of its frame, and that call right after the header dump for the
    same frame number in the same directory: the header artifact, or,
    when the file system refused it, the message that it cannot be
    created. *)
Theorem pcm_artifact_has_header (fuel : nat) (argv : list String.string)
    (l : list event) (dir : String.string) (n : Z) (content : list byte) :
  effects (run fuel argv) = Some l ->
  In (WriteBinary (frame_pcm_bin dir n) content) l ->
  exists before header_dump after,
    ((exists header,
        header_dump = WriteBinary (frame_adts_bin dir n) header) \/
     header_dump = Stderr (err_cannot_create (frame_adts_bin dir n))) /\
    l = before ++ header_dump
               :: CallDecode
               :: WriteBinary (frame_pcm_bin dir n) content :: after.
Proof.
  intros H. revert dir n content. change (pcm_after_header l).
  destruct (main_shape argv)
    as [(m & E & Hm)|[(skipped & tail & Hsk & Ht & E)
                |(file_data & skipped & decoder2 & sample_rate & channels
                  & R & Hsync & _ & Hsk & E)]].
  - rewrite E in H. injection H as <-. apply pcm_after_header_none.
    intros e [<-|[]]. reflexivity.
  - rewrite E in H. injection H as <-. apply pcm_after_header_none.
    intros e Hin. apply in_app_or in Hin.
    destruct Hsk as [-> |(k & ->)]; destruct Ht as [[_ ->]|[_ ->]];
      destruct Hin as [Hin|Hin];
      repeat (destruct Hin as [<-|Hin]; [reflexivity|]); destruct Hin.
  - rewrite E in H.
    assert (P0 : pcm_after_header (prologue skipped sample_rate channels)).
    { apply pcm_after_header_none. intros e Hin. apply in_app_or in Hin.
      destruct Hsk as [-> |(k & ->)]; destruct Hin as [Hin|Hin];
        repeat (destruct Hin as [<-|Hin]; [reflexivity|]); destruct Hin. }
    pose proof (decode_loop_pcm_after_header _ NeAACDecDecode fopen file_data
                  (nth 2 argv String.EmptyString) (max_frames_of atoi argv)
                  fuel
                  (mk_run_state (find_adts_sync file_data) 0 0 decoder2
                     (prologue skipped sample_rate channels)) P0) as A.
    destruct (decode_loop _ _ _ _ _ _ _) as [s|before|];
      try discriminate H; injection H as <-; [|exact A].
    apply pcm_after_header_app; [exact A|].
    intros e Hin. unfold write_info_json in Hin.
    destruct (fopen _ _);
      repeat (destruct Hin as [<-|Hin]; [reflexivity|]); destruct Hin.
Qed.

(** X12. The program terminates: for every command line there is an
    amount of fuel with which [main] returns or dies on the division by
    a channel count of 0, and more fuel gives the same run.  The input
    file is one whose size leaves room for a frame length below
    [SIZE_MAX]. *)
Theorem main_terminates (argv : list String.string) :
  (forall file_data,
     read_file (nth 1 argv String.EmptyString) = Loaded file_data ->
     Z.of_nat (length file_data) + 8191 <= SIZE_MAX) ->
  exists fuel,
    run fuel argv <> OutOfFuel /\
    forall fuel', (fuel <= fuel')%nat -> run fuel' argv = run fuel argv.
Proof.
  intros Hsize.
  destruct (main_shape argv)
    as [(m & E & Hm)|[(skipped & tail & Hsk & Ht & E)
                |(file_data & skipped & decoder2 & sample_rate & channels
                  & R & Hsync & _ & Hsk & E)]].
  - exists 0%nat. rewrite E. split; [discriminate|].
    intros fuel' _. rewrite E. reflexivity.
  - exists 0%nat. rewrite E. split; [discriminate|].
    intros fuel' _. rewrite E. reflexivity.
  - set (s0 := mk_run_state (find_adts_sync file_data) 0 0 decoder2
                 (prologue skipped sample_rate channels)) in *.
    destruct (decode_loop_enough_fuel _ NeAACDecDecode fopen file_data
                (nth 2 argv String.EmptyString) (max_frames_of atoi argv)
                (Z.to_nat (Z.of_nat (length file_data) - pos s0))
                (Hsize file_data R) s0) as [Hne Hfuel];
      [exact Hsync|lia|].
    exists (S (Z.to_nat (Z.of_nat (length file_data) - pos s0))).
    split.
    + rewrite E. destruct (decode_loop _ _ _ _ _ _ _);
        [discriminate|discriminate|contradiction].
    + intros fuel' Hf. rewrite !E, (Hfuel fuel') by lia. reflexivity.
Qed.

(** X13. The frame cap: the [total_frames] of the summary, in the
    closing line and in [info.json] when that is written, is between 0
    and [INT32_MAX], and it is 0 or at most [max_frames], the [int] read
    from the third argument. *)
Theorem total_frames_capped (fuel : nat) (argv : list String.string)
    (l : list event) :
  run fuel argv = Finished (0, l) ->
  exists before sample_rate channels total_frames total_samples,
    l = before ++
        write_info_json (fopen before) (nth 2 argv String.EmptyString)
          sample_rate channels total_frames total_samples ++
        [Stdout (msg_decoded total_frames total_samples);
         CallClose] /\
    0 <= total_frames <= INT32_MAX /\
    (total_frames = 0 \/ total_frames <= max_frames_of atoi argv).
Proof.
  intros H.
  destruct (main_finished_ok fuel argv l H)
    as (file_data & skipped & decoder2 & sample_rate & channels & s
        & _ & _ & _ & L & ->).
  exists (log s), sample_rate, channels, (frame_num s), (total_samples s).
  split; [reflexivity|].
  pose proof (max_frames_of_le atoi argv) as Hmax.
  pose proof (fun H0 Hc =>
                decode_loop_capped _ NeAACDecDecode fopen file_data
                  (nth 2 argv String.EmptyString) (max_frames_of atoi argv)
                  fuel _ s Hmax H0 Hc L) as C.
  cbn [frame_num] in C.
  destruct (C ltac:(lia) ltac:(left; reflexivity)) as [H0 Hc].
  split; [|exact Hc]. unfold INT32_MAX in *. destruct Hc; lia.
Qed.


(** X15. Every counted frame took at least 7 bytes of the file behind
    the first sync pattern: 7 times [total_frames] is at most the file
    size less the initial sync offset. *)
Theorem total_frames_fit_file (fuel : nat) (argv : list String.string)
    (file_data : list byte) (l : list event) :
  read_file (nth 1 argv String.EmptyString) = Loaded file_data ->
  Z.of_nat (length file_data) + 8191 <= SIZE_MAX ->
  run fuel argv = Finished (0, l) ->
  exists before sample_rate channels total_frames total_samples,
    l = before ++
        write_info_json (fopen before) (nth 2 argv String.EmptyString)
          sample_rate channels total_frames total_samples ++
        [Stdout (msg_decoded total_frames total_samples);
         CallClose] /\
    7 * total_frames
    <= Z.of_nat (length file_data) - find_adts_sync file_data.
Proof.
  intros R Hsize H.
  destruct (main_finished_ok fuel argv l H)
    as (file_data' & skipped & decoder2 & sample_rate & channels & s
        & R' & Hsync & Hsk & L & ->).
  rewrite R in R'. injection R' as <-.
  exists (log s), sample_rate, channels, (frame_num s), (total_samples s).
  split; [reflexivity|].
  pose proof (find_adts_sync_bound file_data Hsync) as Hb.
  pose proof (fun Hp Hn =>
                decode_loop_cursor _ NeAACDecDecode fopen file_data
                  (nth 2 argv String.EmptyString) (max_frames_of atoi argv)
                  fuel _ s Hsize (max_frames_of_le atoi argv) Hp Hn L) as C.
  cbn [pos frame_num] in C.
  destruct (C Hsync ltac:(lia)) as (_ & Hp & Hfit). lia.
Qed.

End MainExtras.

(** ** The further properties on the stub decoder *)

Lemma parse_adts_header_fields_fit_witness :
  parse_adts_header header_plain = Some hdr_plain /\
  Forall2 (fun v w => 0 <= v < 2 ^ w) (header_fields hdr_plain)
    adts_field_widths.
Proof.
  split; [reflexivity|].
  apply (parse_adts_header_fields_fit header_plain hdr_plain). reflexivity.
Defined.

Lemma parse_adts_header_reads_7_bytes_witness :
  7 <= Z.of_nat (length frame50) /\
  parse_adts_header frame50 = parse_adts_header (firstn 7 frame50).
Proof.
  assert (H : 7 <= Z.of_nat (length frame50)) by (vm_compute; discriminate).
  split; [exact H|]. exact (parse_adts_header_reads_7_bytes frame50 H).
Defined.

Lemma parse_adts_header_injective_witness :
  parse_adts_header header_plain = Some hdr_plain /\
  parse_adts_header frame50 = Some hdr_plain /\
  firstn 7 header_plain = firstn 7 frame50.
Proof.
  split; [reflexivity|]. split; [reflexivity|].
  apply (parse_adts_header_injective header_plain frame50 hdr_plain);
    reflexivity.
Defined.

Lemma find_adts_sync_hit_parses_witness :
  Z.of_nat (length sync_sample) <= INT32_MAX /\
  0 <= find_adts_sync sync_sample /\
  sync_pattern (slice sync_sample (find_adts_sync sync_sample)) /\
  find_adts_sync (slice sync_sample (find_adts_sync sync_sample)) = 0 /\
  (parse_adts_header (slice sync_sample (find_adts_sync sync_sample)) = None
   <-> Z.of_nat (length sync_sample) - find_adts_sync sync_sample < 7).
Proof.
  assert (H1 : Z.of_nat (length sync_sample) <= INT32_MAX)
    by (vm_compute; discriminate).
  assert (H2 : 0 <= find_adts_sync sync_sample)
    by (vm_compute; discriminate).
  split; [exact H1|]. split; [exact H2|].
  exact (find_adts_sync_hit_parses sync_sample H1 H2).
Defined.

Lemma find_adts_sync_app_witness :
  Z.of_nat (length (sync_sample ++ header_plain)) <= INT32_MAX /\
  0 <= find_adts_sync sync_sample /\
  find_adts_sync (sync_sample ++ header_plain) = find_adts_sync sync_sample.
Proof.
  assert (H1 : Z.of_nat (length (sync_sample ++ header_plain)) <= INT32_MAX)
    by (vm_compute; discriminate).
  assert (H2 : 0 <= find_adts_sync sync_sample)
    by (vm_compute; discriminate).
  split; [exact H1|]. split; [exact H2|].
  exact (find_adts_sync_app sync_sample header_plain H1 H2).
Defined.

Lemma decode_loop_leaves_no_sync_witness :
  decode_loop stub_decode writable two_frames String.EmptyString 100 20
    stub_start
  = Finished stub_end /\
  pos stub_start <= pos stub_end /\
  (100 <= frame_num stub_end \/
   forall i, pos stub_end <= i -> ~ is_sync_index two_frames i).
Proof.
  assert (H : decode_loop stub_decode writable two_frames
                String.EmptyString 100 20 stub_start = Finished stub_end)
    by (vm_compute; reflexivity).
  split; [exact H|].
  apply (decode_loop_leaves_no_sync unit stub_decode writable two_frames
           String.EmptyString 100 20 stub_start stub_end);
    try exact H; vm_compute; discriminate.
Defined.

Lemma invalid_header_only_at_end_witness :
  loop_body stub_decode writable truncated_stream String.EmptyString 100
    truncated_state
  = Again (mk_run_state 51 1 0 tt [Stderr (warn_invalid_header 1)]) /\
  is_sync_index truncated_stream 50 /\
  Z.of_nat (length truncated_stream) - 7 < 50.
Proof.
  assert (B : loop_body stub_decode writable truncated_stream
                String.EmptyString 100 truncated_state
              = Again (mk_run_state 51 1 0 tt
                         [Stderr (warn_invalid_header 1)]))
    by (vm_compute; reflexivity).
  split; [exact B|].
  destruct (invalid_header_only_at_end unit stub_decode writable
              truncated_stream String.EmptyString 100 truncated_state _
              ltac:(vm_compute; discriminate) ltac:(vm_compute; discriminate)
              B eq_refl) as (S & T & _).
  split; [exact S|exact T].
Defined.


Lemma main_closes_decoder_witness :
  stub_main 100 20 = Finished (0, stub_log) /\
  count is_open_call stub_log <= 1 /\
  count is_close_call stub_log = count is_open_call stub_log /\
  (count is_close_call stub_log = 1 ->
   exists l0, stub_log = l0 ++ [CallClose]).
Proof.
  assert (H : stub_main 100 20 = Finished (0, stub_log))
    by (vm_compute; reflexivity).
  split; [exact H|].
  exact (main_closes_decoder unit (Some tt) (fun d _ _ => d) stub_init
           stub_decode (fun _ => 100) (fun _ => Loaded two_frames) writable 20
           stub_argv 0 stub_log H).
Defined.

Lemma adts_frames_consecutive_witness :
  effects (stub_main 100 20) = Some stub_log /\
  adts_frames stub_log = upto (length (adts_frames stub_log)) /\
  forall l1 l2 l3 dir1 n1 content1 dir2 n2 content2,
    stub_log
    = l1 ++ WriteBinary (frame_adts_bin dir1 n1) content1
         :: l2 ++ WriteBinary (frame_adts_bin dir2 n2) content2 :: l3 ->
    n1 < n2.
Proof.
  assert (H : effects (stub_main 100 20) = Some stub_log)
    by (vm_compute; reflexivity).
  split; [exact H|].
  exact (adts_frames_consecutive unit (Some tt) (fun d _ _ => d) stub_init
           stub_decode (fun _ => 100) (fun _ => Loaded two_frames) writable
           20 stub_argv stub_log H).
Defined.

Lemma pcm_artifact_has_header_witness :
  effects (stub_main 100 20) = Some stub_log /\
  In (WriteBinary (frame_pcm_bin String.EmptyString 1) (repeat x01 12))
    stub_log /\
  exists before header_dump after,
    ((exists header,
        header_dump
        = WriteBinary (frame_adts_bin String.EmptyString 1) header) \/
     header_dump
     = Stderr (err_cannot_create (frame_adts_bin String.EmptyString 1))) /\
    stub_log
    = before ++ header_dump
             :: CallDecode
             :: WriteBinary (frame_pcm_bin String.EmptyString 1)
                  (repeat x01 12)
             :: after.
Proof.
  assert (H : effects (stub_main 100 20) = Some stub_log)
    by (vm_compute; reflexivity).
  assert (Hin : In (WriteBinary (frame_pcm_bin String.EmptyString 1)
                      (repeat x01 12)) stub_log)
    by (vm_compute; do 12 right; left; reflexivity).
  split; [exact H|]. split; [exact Hin|].
  exact (pcm_artifact_has_header unit (Some tt) (fun d _ _ => d) stub_init
           stub_decode (fun _ => 100) (fun _ => Loaded two_frames) writable
           20 stub_argv stub_log String.EmptyString 1 (repeat x01 12) H Hin).
Defined.

Lemma main_terminates_witness :
  Z.of_nat (length two_frames) + 8191 <= SIZE_MAX /\
  exists fuel,
    stub_main 100 fuel <> OutOfFuel /\
    forall fuel', (fuel <= fuel')%nat ->
      stub_main 100 fuel' = stub_main 100 fuel.
Proof.
  assert (H : Z.of_nat (length two_frames) + 8191 <= SIZE_MAX)
    by (vm_compute; discriminate).
  split; [exact H|].
  apply (main_terminates unit (Some tt) (fun d _ _ => d) stub_init
           stub_decode (fun _ => 100) (fun _ => Loaded two_frames) writable
           stub_argv).
  intros file_data E. injection E as <-. exact H.
Defined.

Lemma total_frames_capped_witness :
  stub_main 1 20
  = Finished (0, match effects (stub_main 1 20) with
                 | Some l => l
                 | None => []
                 end) /\
  exists before sample_rate channels total_frames total_samples,
    match effects (stub_main 1 20) with
    | Some l => l
    | None => []
    end
    = before ++
      [WriteInfo (info_json String.EmptyString) sample_rate channels
         total_frames total_samples;
       Stdout (msg_decoded total_frames total_samples);
       CallClose] /\
    0 <= total_frames <= INT32_MAX /\
    (total_frames = 0 \/ total_frames <= 1).
Proof.
  assert (H : stub_main 1 20
              = Finished (0, match effects (stub_main 1 20) with
                             | Some l => l
                             | None => []
                             end))
    by (vm_compute; reflexivity).
  split; [exact H|].
  exact (total_frames_capped unit (Some tt) (fun d _ _ => d) stub_init
           stub_decode (fun _ => 1) (fun _ => Loaded two_frames) writable 20
           stub_argv _ H).
Defined.


Lemma total_frames_fit_file_witness :
  Z.of_nat (length two_frames) + 8191 <= SIZE_MAX /\
  stub_main 100 20 = Finished (0, stub_log) /\
  exists before sample_rate channels total_frames total_samples,
    stub_log
    = before ++
      [WriteInfo (info_json String.EmptyString) sample_rate channels
         total_frames total_samples;
       Stdout (msg_decoded total_frames total_samples);
       CallClose] /\
    7 * total_frames
    <= Z.of_nat (length two_frames) - find_adts_sync two_frames.
Proof.
  assert (H1 : Z.of_nat (length two_frames) + 8191 <= SIZE_MAX)
    by (vm_compute; discriminate).
  assert (H : stub_main 100 20 = Finished (0, stub_log))
    by (vm_compute; reflexivity).
  split; [exact H1|]. split; [exact H|].
  exact (total_frames_fit_file unit (Some tt) (fun d _ _ => d) stub_init
           stub_decode (fun _ => 100) (fun _ => Loaded two_frames) writable 20
           stub_argv two_frames stub_log eq_refl H1 H).
Defined.
